(** * The call service of the dialler (modules/calls/services/call.service.ts)

    A shallow embedding of [CallService] and of the part of the Prisma
    store it talks to, followed by the properties of the scoring helpers,
    of the outcome recorder, of the Twilio webhook handler and of the
    analytics query.

    Conventions of the embedding.
    - A JavaScript [Date] is the number of milliseconds since the epoch, a
      [Z].  Integer columns and the numbers that flow into them are [Z];
      the averages of the analytics query are rationals.
    - An optional field ([undefined] or [null]) is an [option].
    - A [Record<string, T>] object literal is the finite map of its own
      keys; names inherited from [Object.prototype] are outside the model.
    - Every [new Date()] reads the wall clock of the world, every row
      insertion draws a fresh identifier from the world's generator; both
      are oracles indexed by the number of draws made so far.
    - Columns that the database maintains ([createdAt], [updatedAt],
      [loginAt], [logoutAt]) and the [meta] argument of the logger are left
      out; the clock reading made for an explicit [updatedAt] is still made.
      The store keeps rows and nothing else: column types and foreign keys
      of the Prisma schema are not enforced by the model. *)

From Stdlib Require Import ZArith QArith Qround String List Lia.
From stdpp Require Import base option gmap strings list fin_maps.
From Stdlib Require Import Ascii DecimalString DecimalPos DecimalZ.
From stdpp Require Import sorting.

#[local] Open Scope string_scope.
#[local] Open Scope Z_scope.

(** ** JavaScript truthiness and the [||] operator *)

Class Truthy (A : Type) := truthy : A -> bool.

#[global] Instance Z_truthy : Truthy Z := fun n => negb (Z.eqb n 0).
#[global] Instance string_truthy : Truthy string :=
  fun s => negb (String.eqb s "").
#[global] Instance bool_truthy : Truthy bool := fun b => b.

(** [a || d] where [a] may be [undefined]. *)
Definition jsOr {A} `{Truthy A} (a : option A) (d : A) : A :=
  match a with
  | Some v => if truthy v then v else d
  | None => d
  end.

(** [a ? ... : ...] and [if (a)] for a possibly undefined [a]. *)
Definition isTruthy {A} `{Truthy A} (a : option A) : bool :=
  match a with
  | Some v => truthy v
  | None => false
  end.

(** [xs.includes(s)] on an array of strings. *)
Definition includes (xs : list string) (s : string) : bool :=
  existsb (String.eqb s) xs.

(** ** Scoring helpers *)

Definition delayMap : gmap string Z :=
  list_to_map
    [ ("contacted", 24);
      ("no_answer", 4);
      ("busy", 2);
      ("wrong_number", 48);
      ("not_interested", 48);
      ("callback_requested", 0);
      ("left_voicemail", 8);
      ("failed", 1) ].

Definition getDefaultDelayHours (outcomeType : string) : Z :=
  jsOr (delayMap !! outcomeType) 4.

Definition adjustmentMap : gmap string Z :=
  list_to_map
    [ ("contacted", -10);
      ("no_answer", 5);
      ("busy", 2);
      ("wrong_number", 50);
      ("not_interested", 100);
      ("callback_requested", -20);
      ("left_voicemail", 10);
      ("failed", 0) ].

Definition getScoreAdjustment (outcomeType : string) : Z :=
  jsOr (adjustmentMap !! outcomeType) 0.

(** The eight outcome names of the two tables. *)
Definition outcomeTypes : list string :=
  [ "contacted"; "no_answer"; "busy"; "wrong_number"; "not_interested";
    "callback_requested"; "left_voicemail"; "failed" ].

(** ** Rows of the store (the Prisma schema) *)

Record CallSession := mkCallSession {
  cs_id : string;
  cs_userId : Z;
  cs_agentId : Z;
  cs_callQueueId : string;
  cs_twilioCallSid : option string;
  cs_status : string;
  cs_direction : string;
  cs_startedAt : Z;
  cs_connectedAt : option Z;
  cs_endedAt : option Z;
  cs_durationSeconds : option Z;
  cs_talkTimeSeconds : option Z;
  cs_userClaimsContext : option string
}.

Record CallOutcome := mkCallOutcome {
  co_id : string;
  co_callSessionId : string;
  co_outcomeType : string;
  co_outcomeNotes : option string;
  co_nextCallDelayHours : option Z;
  co_scoreAdjustment : option Z;
  co_magicLinkSent : bool;
  co_smsSent : bool;
  co_documentsRequested : option (list string);
  co_recordedByAgentId : Z
}.

Record UserCallScore := mkUserCallScore {
  ucs_userId : Z;
  ucs_currentScore : Z;
  ucs_nextCallAfter : option Z;
  ucs_lastCallAt : option Z;
  ucs_totalAttempts : Z;
  ucs_successfulCalls : Z;
  ucs_lastOutcome : option string;
  ucs_baseScore : Z;
  ucs_outcomePenaltyScore : Z;
  ucs_timePenaltyScore : Z
}.

Record Callback := mkCallback {
  cb_id : string;
  cb_userId : Z;
  cb_scheduledFor : Z;
  cb_callbackReason : option string;
  cb_preferredAgentId : option Z;
  cb_originalCallSessionId : string;
  cb_status : string;
  cb_completedCallSessionId : option string
}.

Record AgentSession := mkAgentSession {
  as_id : string;
  as_agentId : Z;
  as_status : string;
  as_currentCallSessionId : option string;
  as_lastActivity : Z;
  as_callsCompletedToday : Z;
  as_totalTalkTimeSeconds : Z
}.

Record CallQueue := mkCallQueue {
  cq_id : string;
  cq_userId : Z;
  cq_queueType : string;
  cq_priorityScore : Z;
  cq_status : string;
  cq_assignedToAgentId : option Z
}.

(** The tables.  [userCallScore] is keyed by its unique [userId]; the other
    tables are kept in row order, which is the order [findFirst] scans. *)
Record Db := mkDb {
  callSession : list CallSession;
  callOutcome : list CallOutcome;
  userCallScore : gmap Z UserCallScore;
  callback : list Callback;
  agentSession : list AgentSession;
  callQueue : list CallQueue
}.

(** ** Arguments and results of the service (types/call.types) *)

(** Modelled from the spec: [CallSessionOptions] of types/call.types, with
    the fields [initiateCall] destructures. *)
Record CallSessionOptions := mkCallSessionOptions {
  so_userId : Z;
  so_agentId : Z;
  so_queueId : option string;
  so_direction : option string;
  so_phoneNumber : option string
}.

(** Modelled from the spec: [CallUpdateOptions] of types/call.types, with
    the fields [updateCallStatus] reads. *)
Record CallUpdateOptions := mkCallUpdateOptions {
  uo_status : option string;
  uo_twilioCallSid : option string;
  uo_connectedAt : option Z;
  uo_endedAt : option Z
}.

(** Modelled from the spec: [CallOutcomeOptions] of types/call.types, the
    outcome submission of section 6. *)
Record CallOutcomeOptions := mkCallOutcomeOptions {
  oo_outcomeType : string;
  oo_outcomeNotes : option string;
  oo_nextCallDelayHours : option Z;
  oo_scoreAdjustment : option Z;
  oo_magicLinkSent : option bool;
  oo_smsSent : option bool;
  oo_documentsRequested : option (list string);
  oo_callbackDateTime : option Z;
  oo_callbackReason : option string
}.

(** Modelled from the spec: [TwilioWebhookData] of types/call.types, the
    telephony event of section 6. *)
Record TwilioWebhookData := mkTwilioWebhookData {
  wh_CallSid : string;
  wh_CallStatus : string;
  wh_Duration : option string;
  wh_CallDuration : option string
}.

(** Modelled from the spec: [CallAnalyticsFilters] of types/call.types. *)
Record CallAnalyticsFilters := mkCallAnalyticsFilters {
  af_agentId : option Z;
  af_startDate : option Z;
  af_endDate : option Z;
  af_outcomeType : option string
}.

(** ** The world: store, log, wall clock and identifier generator *)

Inductive LogLevel := LInfo | LWarn | LError.

Inductive exn :=
| Error (message : string)            (* [throw new Error(message)] *)
| RecordNotFound (model : string).    (* Prisma: row to update not found *)

Record World := mkWorld {
  db : Db;
  logged : list (LogLevel * string);
  clock : nat -> Z;
  reads : nat;
  uuid : nat -> string;
  issued : nat;
  claimsJson : Z -> string
}.

Definition withDb (d : Db) (w : World) : World :=
  mkWorld d (logged w) (clock w) (reads w) (uuid w) (issued w) (claimsJson w).

(** Computations of the service: a result or an exception, and the world
    after.  An exception does not undo what was done before it; undoing is
    the business of [transaction]. *)
Definition M (A : Type) : Type := World -> (exn + A) * World.

#[global] Instance M_ret : MRet M := fun A a w => (inr a, w).

#[global] Instance M_bind : MBind M := fun A B f c w =>
  match c w with
  | (inl e, w') => (inl e, w')
  | (inr a, w') => f a w'
  end.

Definition throw {A} (e : exn) : M A := fun w => (inl e, w).

Definition getDb : M Db := fun w => (inr (db w), w).

Definition putDb (d : Db) : M unit := fun w => (inr tt, withDb d w).

(** [new Date()] *)
Definition newDate : M Z := fun w =>
  (inr (clock w (reads w)),
   mkWorld (db w) (logged w) (clock w) (S (reads w)) (uuid w) (issued w)
     (claimsJson w)).

(** The [@default(uuid())] of a row id. *)
Definition newId : M string := fun w =>
  (inr (uuid w (issued w)),
   mkWorld (db w) (logged w) (clock w) (reads w) (uuid w) (S (issued w))
     (claimsJson w)).

(** [this.deps.logger.info / warn / error] *)
Definition log (l : LogLevel) (message : string) : M unit := fun w =>
  (inr tt,
   mkWorld (db w) (logged w ++ [(l, message)]) (clock w) (reads w) (uuid w)
     (issued w) (claimsJson w)).

(** [prisma.$transaction(async tx => body)]: the writes of a body that throws
    are rolled back; its log lines and clock readings are not. *)
Definition transaction {A} (body : M A) : M A := fun w =>
  match body w with
  | (inl e, w') => (inl e, withDb (db w) w')
  | (inr a, w') => (inr a, w')
  end.

(** [if (c) { body }] *)
Definition when (c : bool) (body : M unit) : M unit :=
  if c then body else mret tt.

(** ** Prisma operations on the tables *)

Definition setCallSession (l : list CallSession) (d : Db) : Db :=
  mkDb l (callOutcome d) (userCallScore d) (callback d) (agentSession d)
    (callQueue d).
Definition setCallOutcome (l : list CallOutcome) (d : Db) : Db :=
  mkDb (callSession d) l (userCallScore d) (callback d) (agentSession d)
    (callQueue d).
Definition setUserCallScore (m : gmap Z UserCallScore) (d : Db) : Db :=
  mkDb (callSession d) (callOutcome d) m (callback d) (agentSession d)
    (callQueue d).
Definition setCallback (l : list Callback) (d : Db) : Db :=
  mkDb (callSession d) (callOutcome d) (userCallScore d) l (agentSession d)
    (callQueue d).
Definition setAgentSession (l : list AgentSession) (d : Db) : Db :=
  mkDb (callSession d) (callOutcome d) (userCallScore d) (callback d) l
    (callQueue d).
Definition setCallQueue (l : list CallQueue) (d : Db) : Db :=
  mkDb (callSession d) (callOutcome d) (userCallScore d) (callback d)
    (agentSession d) l.

(** Rewrite the first row that satisfies [p]; [None] when there is none. *)
Fixpoint updateFirst {A} (p : A -> bool) (f : A -> A) (l : list A)
  : option (A * list A) :=
  match l with
  | [] => None
  | x :: rest =>
      if p x then Some (f x, f x :: rest)
      else match updateFirst p f rest with
           | Some (y, rest') => Some (y, x :: rest')
           | None => None
           end
  end.

(** Rewrite every row that satisfies [p]. *)
Definition updateMany {A} (p : A -> bool) (f : A -> A) (l : list A) : list A :=
  map (fun x => if p x then f x else x) l.

Definition hasId (id : string) (s : CallSession) : bool :=
  String.eqb (cs_id s) id.

Definition hasSid (sid : string) (s : CallSession) : bool :=
  match cs_twilioCallSid s with
  | Some x => String.eqb x sid
  | None => false
  end.

Definition callSession_create (row : CallSession) : M CallSession :=
  d ← getDb;
  putDb (setCallSession (callSession d ++ [row]) d);;
  mret row.

Definition callSession_findUnique (id : string) : M (option CallSession) :=
  d ← getDb; mret (List.find (hasId id) (callSession d)).

Definition callSession_findFirst (p : CallSession -> bool)
  : M (option CallSession) :=
  d ← getDb; mret (List.find p (callSession d)).

Definition callSession_update (id : string) (f : CallSession -> CallSession)
  : M CallSession :=
  d ← getDb;
  match updateFirst (hasId id) f (callSession d) with
  | Some (row, rows) => putDb (setCallSession rows d);; mret row
  | None => throw (RecordNotFound "CallSession")
  end.

Definition callOutcome_create (row : CallOutcome) : M CallOutcome :=
  d ← getDb;
  putDb (setCallOutcome (callOutcome d ++ [row]) d);;
  mret row.

Definition userCallScore_upsert (userId : Z)
    (update : UserCallScore -> UserCallScore) (create : UserCallScore)
  : M unit :=
  d ← getDb;
  let row :=
    match userCallScore d !! userId with
    | Some r => update r
    | None => create
    end in
  putDb (setUserCallScore (<[userId := row]> (userCallScore d)) d).

Definition callback_create (row : Callback) : M unit :=
  d ← getDb; putDb (setCallback (callback d ++ [row]) d).

Definition agentSession_updateMany (p : AgentSession -> bool)
    (f : AgentSession -> AgentSession) : M unit :=
  d ← getDb; putDb (setAgentSession (updateMany p f (agentSession d)) d).

Definition callQueue_update (id : string) (f : CallQueue -> CallQueue)
  : M unit :=
  d ← getDb;
  match updateFirst (fun q => String.eqb (cq_id q) id) f (callQueue d) with
  | Some (_, rows) => putDb (setCallQueue rows d)
  | None => throw (RecordNotFound "CallQueue")
  end.

Definition setQueueStatus (status : string) (q : CallQueue) : CallQueue :=
  mkCallQueue (cq_id q) (cq_userId q) (cq_queueType q) (cq_priorityScore q)
    status (cq_assignedToAgentId q).

(** ** The service *)

(** [mapToCallSession] and [mapToCallOutcome] copy a row field by field into
    the object handed to the caller. *)
Definition mapToCallSession (dbSession : CallSession) : CallSession :=
  dbSession.

Definition mapToCallOutcome (dbOutcome : CallOutcome) : CallOutcome :=
  dbOutcome.

(** [JSON.stringify((await this.getUserCallContext(userId)).claims)] *)
Definition getUserClaims (userId : Z) : M string := fun w =>
  (inr (claimsJson w userId), w).

(** The [userContext] half of the response is the collaborator's answer and
    is not carried along. *)
Definition initiateCall (options : CallSessionOptions) : M CallSession :=
  let userId := so_userId options in
  let agentId := so_agentId options in
  let queueId := so_queueId options in
  let direction := default "outbound" (so_direction options) in
  transaction (
    claims ← getUserClaims userId;
    startedAt ← newDate;
    id ← newId;
    callSession ← callSession_create
      (mkCallSession id userId agentId (jsOr queueId "") None "initiated"
         direction startedAt None None None None (Some claims));
    lastActivity ← newDate;
    agentSession_updateMany
      (fun a => Z.eqb (as_agentId a) agentId
                && includes ["available"; "break"] (as_status a))
      (fun a => mkAgentSession (as_id a) (as_agentId a) "on_call"
                  (Some (cs_id callSession)) lastActivity
                  (as_callsCompletedToday a) (as_totalTalkTimeSeconds a));;
    when (isTruthy queueId)
      (callQueue_update (default "" queueId) (setQueueStatus "assigned"));;
    log LInfo "Call session initiated";;
    mret (mapToCallSession callSession)).

(** A field left [undefined] in [data] keeps its column. *)
Definition orKeep {A} (new old : option A) : option A :=
  match new with
  | Some v => Some v
  | None => old
  end.

(** The [data] object of [updateCallStatus] applied to the row it updates;
    [durationSeconds] is absent unless the call ended. *)
Definition statusData (updateData : CallUpdateOptions)
    (durationSeconds : option Z) (s : CallSession) : CallSession :=
  let talkTimeSeconds :=
    match uo_endedAt updateData, uo_connectedAt updateData with
    | Some endedAt, Some connectedAt => Some ((endedAt - connectedAt) / 1000)
    | _, _ => None
    end in
  mkCallSession (cs_id s) (cs_userId s) (cs_agentId s) (cs_callQueueId s)
    (orKeep (uo_twilioCallSid updateData) (cs_twilioCallSid s))
    (default (cs_status s) (uo_status updateData))
    (cs_direction s) (cs_startedAt s)
    (orKeep (uo_connectedAt updateData) (cs_connectedAt s))
    (orKeep (uo_endedAt updateData) (cs_endedAt s))
    (orKeep durationSeconds (cs_durationSeconds s))
    (orKeep talkTimeSeconds (cs_talkTimeSeconds s))
    (cs_userClaimsContext s).

Definition updateCallStatus (sessionId : string)
    (updateData : CallUpdateOptions) : M CallSession :=
  durationSeconds ←
    match uo_endedAt updateData with
    | Some endedAt => now ← newDate; mret (Some ((endedAt - now) / 1000))
    | None => mret None
    end;
  session ← callSession_update sessionId
               (statusData updateData durationSeconds);
  log LInfo "Call status updated";;
  mret (mapToCallSession session).

Definition calculateNextCallTime (outcomeType : string) : M Z :=
  now ← newDate;
  let delayHours := getDefaultDelayHours outcomeType in
  mret (now + delayHours * 60 * 60 * 1000).

(** The [update] and [create] objects of the score upsert. *)
Definition scoreUpdate (adjustment : Z) (outcomeType : string)
    (nextCallAfter lastCallAt : Z) (r : UserCallScore) : UserCallScore :=
  mkUserCallScore (ucs_userId r) (ucs_currentScore r + adjustment)
    (Some nextCallAfter) (Some lastCallAt) (ucs_totalAttempts r + 1)
    (ucs_successfulCalls r) (Some outcomeType) (ucs_baseScore r)
    (ucs_outcomePenaltyScore r) (ucs_timePenaltyScore r).

Definition scoreCreate (userId adjustment : Z) (outcomeType : string)
    (nextCallAfter lastCallAt : Z) : UserCallScore :=
  mkUserCallScore userId (Z.max 0 adjustment) (Some nextCallAfter)
    (Some lastCallAt) 1 0 (Some outcomeType) 0 0 0.

Definition updateUserScoreAfterCall (userId : Z) (outcomeType : string)
    (scoreAdjustment : option Z) : M unit :=
  let adjustment := jsOr scoreAdjustment (getScoreAdjustment outcomeType) in
  nextCallAfter ← calculateNextCallTime outcomeType;
  lastCallAt ← newDate;
  updatedAt ← newDate;
  lastCallAt' ← newDate;
  userCallScore_upsert userId
    (scoreUpdate adjustment outcomeType nextCallAfter lastCallAt)
    (scoreCreate userId adjustment outcomeType nextCallAfter lastCallAt').

(** The [data] of the outcome row. *)
Definition outcomeData (id sessionId : string) (agentId : Z)
    (outcome : CallOutcomeOptions) : CallOutcome :=
  mkCallOutcome id sessionId (oo_outcomeType outcome)
    (Some (jsOr (oo_outcomeNotes outcome) ""))
    (Some (jsOr (oo_nextCallDelayHours outcome)
             (getDefaultDelayHours (oo_outcomeType outcome))))
    (Some (jsOr (oo_scoreAdjustment outcome)
             (getScoreAdjustment (oo_outcomeType outcome))))
    (jsOr (oo_magicLinkSent outcome) false)
    (jsOr (oo_smsSent outcome) false)
    (oo_documentsRequested outcome)
    agentId.

(** The [data] of the callback row. *)
Definition callbackData (id : string) (callSession : CallSession)
    (sessionId : string) (agentId : Z) (outcome : CallOutcomeOptions)
    (callbackDateTime : Z) : Callback :=
  mkCallback id (cs_userId callSession) callbackDateTime
    (Some (jsOr (oo_callbackReason outcome) "User requested callback"))
    (Some agentId) sessionId "pending" None.

(** The [where] and [data] that release the agent. *)
Definition onThisCall (agentId : Z) (sessionId : string) (a : AgentSession)
  : bool :=
  Z.eqb (as_agentId a) agentId
  && bool_decide (as_currentCallSessionId a = Some sessionId).

Definition releaseAgent (callSession : CallSession) (lastActivity : Z)
    (a : AgentSession) : AgentSession :=
  mkAgentSession (as_id a) (as_agentId a) "available" None lastActivity
    (as_callsCompletedToday a + 1)
    (as_totalTalkTimeSeconds a + jsOr (cs_talkTimeSeconds callSession) 0).

(** The statuses in which the agent is released. *)
Definition callEnded (status : string) : bool :=
  includes ["completed"; "failed"; "no_answer"] status.

Definition recordCallOutcome (sessionId : string) (agentId : Z)
    (outcome : CallOutcomeOptions) : M CallOutcome :=
  transaction (
    found ← callSession_findUnique sessionId;
    match found with
    | None => throw (Error "Call session not found")
    | Some callSession =>
      if negb (Z.eqb (cs_agentId callSession) agentId)
      then throw (Error "Agent not authorized for this call session")
      else
        id ← newId;
        callOutcome ← callOutcome_create
                        (outcomeData id sessionId agentId outcome);
        updateUserScoreAfterCall (cs_userId callSession)
          (oo_outcomeType outcome) (oo_scoreAdjustment outcome);;
        match oo_callbackDateTime outcome with
        | Some callbackDateTime =>
            when (String.eqb (oo_outcomeType outcome) "callback_requested")
              (cbId ← newId;
               callback_create
                 (callbackData cbId callSession sessionId agentId outcome
                    callbackDateTime))
        | None => mret tt
        end;;
        when (callEnded (cs_status callSession))
          (lastActivity ← newDate;
           agentSession_updateMany (onThisCall agentId sessionId)
             (releaseAgent callSession lastActivity));;
        when (truthy (cs_callQueueId callSession))
          (callQueue_update (cs_callQueueId callSession)
             (setQueueStatus "completed"));;
        log LInfo "Call outcome recorded";;
        mret (mapToCallOutcome callOutcome)
    end).

Definition statusMap : gmap string string :=
  list_to_map
    [ ("ringing", "ringing");
      ("in-progress", "connected");
      ("completed", "completed");
      ("busy", "no_answer");
      ("failed", "failed");
      ("no-answer", "no_answer");
      ("canceled", "failed") ].

(** [statusMap[CallStatus] || 'failed'] *)
Definition mapTwilioStatus (CallStatus : string) : string :=
  jsOr (statusMap !! CallStatus) "failed".

(** The events that stamp [endedAt]. *)
Definition endsCall (CallStatus : string) : bool :=
  includes ["completed"; "busy"; "failed"; "no-answer"; "canceled"] CallStatus.

Definition handleTwilioWebhook (webhookData : TwilioWebhookData) : M unit :=
  let CallSid := wh_CallSid webhookData in
  let CallStatus := wh_CallStatus webhookData in
  found ← callSession_findFirst (hasSid CallSid);
  match found with
  | None => log LWarn "Twilio webhook for unknown call session"
  | Some callSession =>
      let status := mapTwilioStatus CallStatus in
      connectedAt ←
        (if String.eqb CallStatus "in-progress"
            && negb (bool_decide (is_Some (cs_connectedAt callSession)))
         then now ← newDate; mret (Some now)
         else mret None);
      endedAt ←
        (if endsCall CallStatus
         then now ← newDate; mret (Some now)
         else mret None);
      updateCallStatus (cs_id callSession)
        (mkCallUpdateOptions (Some status) None connectedAt endedAt);;
      log LInfo "Twilio webhook processed"
  end.

(** ** Analytics *)

(** A JavaScript number of the analytics: a rational, or what a division by
    zero leaves behind ([NaN], [Infinity]). *)
Inductive number :=
| Num (q : Q)
| NotFinite.

#[global] Instance Q_truthy : Truthy Q := fun q => negb (Qeq_bool q 0).

Definition jsDiv (a b : number) : number :=
  match a, b with
  | Num x, Num y => if Qeq_bool y 0 then NotFinite else Num (x / y)
  | _, _ => NotFinite
  end.

Definition jsMul (a b : number) : number :=
  match a, b with
  | Num x, Num y => Num (x * y)
  | _, _ => NotFinite
  end.

(** [Math.round]: the nearest integer, halves towards plus infinity. *)
Definition Math_round (a : number) : number :=
  match a with
  | Num x => Num (inject_Z (Qfloor (x + (1 # 2))))
  | NotFinite => NotFinite
  end.

Definition ofZ (n : Z) : number := Num (inject_Z n).

(** Modelled from the spec: [CallAnalytics] of types/call.types, the
    aggregate counts of section 6. *)
Record CallAnalytics := mkCallAnalytics {
  totalCalls : Z;
  completedCalls : Z;
  successfulContacts : Z;
  noAnswers : Z;
  callbacks : Z;
  notInterested : Z;
  avgDurationMinutes : number;
  avgTalkTimeMinutes : number;
  contactRate : number
}.

(** The [where] object built from the filters. *)
Definition sessionWhere (filters : CallAnalyticsFilters) (s : CallSession)
  : bool :=
  (if isTruthy (af_agentId filters)
   then bool_decide (Some (cs_agentId s) = af_agentId filters) else true)
  && match af_startDate filters with
     | Some startDate => startDate <=? cs_startedAt s
     | None => true
     end
  && match af_endDate filters with
     | Some endDate => cs_startedAt s <=? endDate
     | None => true
     end.

(** [count({ where })] *)
Definition count {A} (p : A -> bool) (rows : list A) : Z :=
  Z.of_nat (length (List.filter p rows)).

(** [aggregate({ _avg })] over the non-null values of a column. *)
Definition avg (values : list Z) : option Q :=
  match values with
  | [] => None
  | _ => Some (Qdiv (inject_Z (foldr Z.add 0 values))
                     (inject_Z (Z.of_nat (length values))))
  end.

(** [callOutcome.groupBy({ by: ['outcomeType'], _count, where })] *)
Definition groupByOutcomeType (rows : list CallOutcome)
  : list (string * Z) :=
  map (fun t => (t, count (fun o => String.eqb (co_outcomeType o) t) rows))
      (remove_dups (map co_outcomeType rows)).

Definition getCallAnalytics (filters : CallAnalyticsFilters)
  : M CallAnalytics :=
  d ← getDb;
  let where_ := sessionWhere filters in
  let totalCalls := count where_ (callSession d) in
  let completedCalls :=
    count (fun s => where_ s && String.eqb (cs_status s) "completed")
      (callSession d) in
  let outcomeStats :=
    groupByOutcomeType
      (List.filter
         (fun o => match List.find (hasId (co_callSessionId o)) (callSession d)
                   with
                   | Some s => where_ s
                   | None => false
                   end)
         (callOutcome d)) in
  let avgDuration :=
    avg (omap cs_durationSeconds (List.filter where_ (callSession d))) in
  let avgTalkTime :=
    avg (omap cs_talkTimeSeconds (List.filter where_ (callSession d))) in
  let outcomes : gmap string Z :=
    foldl (fun m stat => <[stat.1 := stat.2]> m) ∅ outcomeStats in
  mret (mkCallAnalytics
    totalCalls
    completedCalls
    (jsOr (outcomes !! "contacted") 0)
    (jsOr (outcomes !! "no_answer") 0)
    (jsOr (outcomes !! "callback_requested") 0)
    (jsOr (outcomes !! "not_interested") 0)
    (match avgDuration with
     | Some a => if truthy a
                 then jsDiv (Math_round (jsMul (jsDiv (Num a) (ofZ 60))
                                           (ofZ 100))) (ofZ 100)
                 else ofZ 0
     | None => ofZ 0
     end)
    (match avgTalkTime with
     | Some a => if truthy a
                 then jsDiv (Math_round (jsMul (jsDiv (Num a) (ofZ 60))
                                           (ofZ 100))) (ofZ 100)
                 else ofZ 0
     | None => ofZ 0
     end)
    (if 0 <? totalCalls
     then Math_round (jsMul (jsDiv (ofZ (jsOr (outcomes !! "contacted") 0))
                               (ofZ totalCalls)) (ofZ 100))
     else ofZ 0)).

(** ** Auxiliary notions for the statements *)

(** The score row that [updateUserScoreAfterCall] leaves for a user, read
    off the world it starts in: the clock is read four times, first by
    [calculateNextCallTime]. *)
Definition scoreAfterCall (userId : Z) (outcomeType : string)
    (scoreAdjustment : option Z) (w : World) : UserCallScore :=
  let adjustment := jsOr scoreAdjustment (getScoreAdjustment outcomeType) in
  let nextCallAfter :=
    clock w (reads w) + getDefaultDelayHours outcomeType * 60 * 60 * 1000 in
  match userCallScore (db w) !! userId with
  | Some r =>
      scoreUpdate adjustment outcomeType nextCallAfter
        (clock w (1 + reads w)) r
  | None =>
      scoreCreate userId adjustment outcomeType nextCallAfter
        (clock w (3 + reads w))
  end.

(** The callback rows an outcome adds. *)
Definition callbacksOf (id : string) (s : CallSession) (sessionId : string)
    (agentId : Z) (outcome : CallOutcomeOptions) : list Callback :=
  match oo_callbackDateTime outcome with
  | Some callbackDateTime =>
      if String.eqb (oo_outcomeType outcome) "callback_requested"
      then [callbackData id s sessionId agentId outcome callbackDateTime]
      else []
  | None => []
  end.

(** The attempts counted for a user, 0 while there is no row. *)
Definition attemptsOf (userId : Z) (w : World) : Z :=
  match userCallScore (db w) !! userId with
  | Some r => ucs_totalAttempts r
  | None => 0
  end.

(** Scoring a sequence of outcomes of one user, each with its optional
    explicit adjustment. *)
Fixpoint scoreAll (userId : Z) (outcomes : list (string * option Z))
  : M unit :=
  match outcomes with
  | [] => mret tt
  | (outcomeType, scoreAdjustment) :: rest =>
      updateUserScoreAfterCall userId outcomeType scoreAdjustment;;
      scoreAll userId rest
  end.

(** ** Sample data for concrete runs *)

Definition sampleUuid (n : nat) : string :=
  String.append "u" (String (Ascii.ascii_of_nat (48 + n)) "").

Definition worldAt (d : Db) (clk : nat -> Z) : World :=
  mkWorld d [] clk 0 sampleUuid 0 (fun _ => "[]").

(** A call of agent 1 to user 7, dialled at time 0 and known to Twilio as
    CA1; it did not come from the queue. *)
Definition sampleSession : CallSession :=
  mkCallSession "s1" 7 1 "" (Some "CA1") "ringing" "outbound" 0
    None None None None None.

Definition sampleDb : Db := mkDb [sampleSession] [] ∅ [] [] [].

Definition plainOutcome (outcomeType : string) : CallOutcomeOptions :=
  mkCallOutcomeOptions outcomeType None None None None None None None None.

Definition webhook (CallSid CallStatus : string) : TwilioWebhookData :=
  mkTwilioWebhookData CallSid CallStatus None None.

(** The world after a computation. *)
Definition after {A} (c : M A) (w : World) : World := snd (c w).


(** Clock readings of the webhook runs: the in-progress event is handled at
    5 s, the completed event at 130 s (the update reads the clock again 3 ms
    later), and a second delivery of the completed event at 190 s. *)
Definition webhookClock (n : nat) : Z :=
  match n with
  | 0%nat => 5000
  | 1%nat => 130000
  | 2%nat => 130003
  | 3%nat => 190000
  | _ => 190002
  end.

Definition connectedWorld : World :=
  after (handleTwilioWebhook (webhook "CA1" "in-progress"))
    (worldAt sampleDb webhookClock).

Definition endedWorld : World :=
  after (handleTwilioWebhook (webhook "CA1" "completed")) connectedWorld.

Definition replayedWorld : World :=
  after (handleTwilioWebhook (webhook "CA1" "completed")) endedWorld.

(** Outcome runs: the clock shows 1000 s and advances a millisecond per
    reading. *)
Definition outcomeClock (n : nat) : Z := 1000000 + Z.of_nat n.

(** User 7 already has a score of 50 after three attempts. *)
Definition scoredDb : Db :=
  mkDb [sampleSession] []
    {[ 7 := mkUserCallScore 7 50 None None 3 0 (Some "busy") 0 0 0 ]}
    [] [] [].

(** An outcome that overrides the adjustment with 0 and the delay with 10
    hours. *)
Definition overridingOutcome : CallOutcomeOptions :=
  mkCallOutcomeOptions "no_answer" None (Some 10) (Some 0) None None None
    None None.

Definition overriddenWorld : World :=
  after (recordCallOutcome "s1" 1 overridingOutcome)
    (worldAt scoredDb outcomeClock).

(** Two [contacted] outcomes in a row for a user without a score. *)
Definition contactedOnce : World :=
  after (recordCallOutcome "s1" 1 (plainOutcome "contacted"))
    (worldAt sampleDb outcomeClock).

Definition contactedTwice : World :=
  after (recordCallOutcome "s1" 1 (plainOutcome "contacted")) contactedOnce.

(** A callback request without overrides for a user without a score. *)
Definition callbackRequested : World :=
  after (recordCallOutcome "s1" 1 (plainOutcome "callback_requested"))
    (worldAt sampleDb outcomeClock).

(** The same request with an explicit delay of 10 hours. *)
Definition delayedCallback : CallOutcomeOptions :=
  mkCallOutcomeOptions "callback_requested" None (Some 10) None None None
    None None None.

Definition callbackDelayed : World :=
  after (recordCallOutcome "s1" 1 delayedCallback)
    (worldAt sampleDb outcomeClock).


(** Analytics restricted to agent 99, who has no calls. *)
Definition idleAgentFilters : CallAnalyticsFilters :=
  mkCallAnalyticsFilters (Some 99) None None None.

(** ** More sample data *)

(** A queue entry for user 7, a finished call of agent 1 that came from it,
    and the agent sessions of agents 1 (on that call) and 2 (available). *)
Definition sampleQueue : CallQueue :=
  mkCallQueue "q1" 7 "priority_call" 10 "assigned" (Some 1).

Definition queuedSession : CallSession :=
  mkCallSession "s2" 7 1 "q1" (Some "CA2") "completed" "outbound" 0
    (Some 5000) (Some 130000) (Some 130) (Some 125) None.

(** A call whose queue entry is gone. *)
Definition danglingSession : CallSession :=
  mkCallSession "s3" 7 1 "q9" None "completed" "outbound" 0
    None None None None None.

Definition agentOne : AgentSession :=
  mkAgentSession "a1" 1 "on_call" (Some "s2") 0 3 600.

Definition agentTwo : AgentSession :=
  mkAgentSession "a2" 2 "available" None 0 0 0.

Definition queueDb : Db :=
  mkDb [sampleSession; queuedSession; danglingSession] [] ∅ []
    [agentOne; agentTwo] [sampleQueue].

(** A call to user 8 that agent 2 takes from queue entry q1, and one from a
    queue entry that does not exist. *)
Definition queueOptions : CallSessionOptions :=
  mkCallSessionOptions 8 2 (Some "q1") None None.


(** ** Auxiliary notions for the further statements *)

(** The agent sessions [initiateCall] puts on the call, and what it makes
    of them. *)
Definition availableOrBreak (agentId : Z) (a : AgentSession) : bool :=
  Z.eqb (as_agentId a) agentId
  && includes ["available"; "break"] (as_status a).

Definition putOnCall (sessionId : string) (lastActivity : Z)
    (a : AgentSession) : AgentSession :=
  mkAgentSession (as_id a) (as_agentId a) "on_call" (Some sessionId)
    lastActivity (as_callsCompletedToday a) (as_totalTalkTimeSeconds a).

Definition hasQueueId (id : string) (q : CallQueue) : bool :=
  String.eqb (cq_id q) id.

(** Whether a computation returns normally in a world. *)
Definition succeeds {A} (c : M A) (w : World) : bool :=
  match fst (c w) with
  | inr _ => true
  | inl _ => false
  end.




(** A store for the analytics: two calls of agent 1, one of agent 2, and
    two outcomes for the first call. *)
Definition firstCall : CallSession :=
  mkCallSession "s1" 7 1 "" None "completed" "outbound" 1000
    (Some 2000) (Some 62000) (Some 61) (Some 60) None.

Definition secondCall : CallSession :=
  mkCallSession "s2" 8 1 "" None "no_answer" "outbound" 2000
    None (Some 30000) (Some 28) None None.

Definition thirdCall : CallSession :=
  mkCallSession "s3" 9 2 "" None "completed" "outbound" 3000
    (Some 4000) (Some 124000) (Some 121) (Some 120) None.

Definition analyticsDb : Db :=
  mkDb [firstCall; secondCall; thirdCall]
    [ mkCallOutcome "o1" "s1" "contacted" None None None false false None 1;
      mkCallOutcome "o2" "s1" "contacted" None None None false false None 1;
      mkCallOutcome "o3" "s2" "no_answer" None None None false false None 1;
      mkCallOutcome "o4" "s3" "contacted" None None None false false None 2 ]
    ∅ [] [] [].

(** ** The user context (mock data of the service) *)

Record Requirement := mkRequirement {
  rq_id : string;
  rq_type : string;
  rq_status : string;
  rq_reason : string
}.

Record Claim := mkClaim {
  cl_id : Z;
  cl_type : string;
  cl_status : string;
  cl_lender : string;
  cl_value : Z;
  cl_requirements : list Requirement
}.

Record MockUser := mkMockUser {
  mu_id : Z;
  mu_firstName : string;
  mu_lastName : string;
  mu_email : string;
  mu_phoneNumber : string;
  mu_claims : option (list Claim)
}.

Record CallScore := mkCallScore {
  sc_currentScore : Z;
  sc_totalAttempts : Z;
  sc_lastOutcome : string
}.

(** Modelled from the spec: [UserCallContext] of types/call.types, with the
    fields [getUserCallContext] fills. *)
Record UserCallContext := mkUserCallContext {
  uc_userId : Z;
  uc_firstName : string;
  uc_lastName : string;
  uc_email : string;
  uc_phoneNumber : string;
  uc_claims : list Claim;
  uc_callScore : CallScore
}.

(** A whole number in a template literal: its decimal digits, with a minus
    sign when negative. *)
Definition numberToString (n : Z) : string :=
  NilZero.string_of_int (Z.to_int n).

#[global] Instance list_truthy {A} : Truthy (list A) := fun _ => true.

Definition getMockUserData (userId : Z) : MockUser :=
  if Z.eqb userId 12345 then
    mkMockUser 12345 "John" "Smith" "john.smith@email.com" "+447700123456"
      (Some [ mkClaim 67890 "VEHICLE" "documents_needed" "Santander" 15000
                [ mkRequirement "req1" "ID_DOCUMENT" "PENDING"
                    "Identity verification required";
                  mkRequirement "req2" "BANK_STATEMENTS" "PENDING"
                    "3 months bank statements needed" ] ])
  else if Z.eqb userId 12346 then
    mkMockUser 12346 "Sarah" "Johnson" "sarah.johnson@email.com"
      "+447700234567"
      (Some [ mkClaim 78901 "CREDIT_CARD" "documents_needed" "Barclaycard"
                8000
                [ mkRequirement "req3" "CREDIT_STATEMENTS" "PENDING"
                    "Credit card statements required" ] ])
  else
    mkMockUser userId "Unknown" "User"
      (String.append "user" (String.append (numberToString userId) "@email.com"))
      "+447700000000" (Some []).

Definition getUserCallContext (userId : Z) : UserCallContext :=
  let mockUser := getMockUserData userId in
  mkUserCallContext (mu_id mockUser) (mu_firstName mockUser)
    (mu_lastName mockUser) (mu_email mockUser) (mu_phoneNumber mockUser)
    (jsOr (mu_claims mockUser) [])
    (mkCallScore 50 1 "no_answer").

(** ** Paginated queries *)

(** The agents of the dialler.  The service reads this table through the
    [agent] and [preferredAgent] relations and never writes it; the queries
    below take it as an argument. *)
Record Agent := mkAgent {
  ag_id : Z;
  ag_email : string;
  ag_firstName : string;
  ag_lastName : string;
  ag_role : string;
  ag_isActive : bool
}.

(** The relation [agent] of a row: the agent its foreign key designates. *)
Definition agentOf (agents : list Agent) (agentId : Z) : option Agent :=
  List.find (fun a => Z.eqb (ag_id a) agentId) agents.



(** [orderBy: { key: 'desc' }] and [orderBy: { key: 'asc' }].  Rows with
    equal keys come in an order the database does not promise; the model
    takes the one of merge sort. *)
Definition descBy {A} (key : A -> Z) : relation A :=
  fun x y => key y <= key x.

Definition ascBy {A} (key : A -> Z) : relation A :=
  fun x y => key x <= key y.

#[global] Instance descBy_dec {A} (key : A -> Z) : RelDecision (descBy key).
Proof. intros x y. unfold descBy. apply _. Defined.

#[global] Instance ascBy_dec {A} (key : A -> Z) : RelDecision (ascBy key).
Proof. intros x y. unfold ascBy. apply _. Defined.

(** [skip: (page - 1) * limit, take: limit], for a page from 1 on and a
    limit that is not negative (the router admits pages from 1 and limits
    from 1 to 100).  What Prisma makes of a negative [skip] or [take] is
    not modelled. *)
Definition paginate {A} (page limit : Z) (rows : list A) : list A :=
  take (Z.to_nat limit) (drop (Z.to_nat ((page - 1) * limit)) rows).

(** [Math.ceil] *)
Definition Math_ceil (a : number) : number :=
  match a with
  | Num x => Num (inject_Z (Qceiling x))
  | NotFinite => NotFinite
  end.

Record PageMeta := mkPageMeta {
  pm_page : Z;
  pm_limit : Z;
  pm_total : Z;
  pm_totalPages : number
}.

(** Modelled from the spec: [GetCallHistoryOptions] of types/call.types,
    the history query of section 6. *)
Record GetCallHistoryOptions := mkGetCallHistoryOptions {
  ho_page : option Z;
  ho_limit : option Z;
  ho_agentId : option Z;
  ho_userId : option Z;
  ho_startDate : option Z;
  ho_endDate : option Z;
  ho_outcome : option string;
  ho_status : option string
}.



(** The [where] object of [getCallHistory]. *)
Definition historyWhere (options : GetCallHistoryOptions) (d : Db)
    (s : CallSession) : bool :=
  (if isTruthy (ho_agentId options)
   then bool_decide (Some (cs_agentId s) = ho_agentId options) else true)
  && (if isTruthy (ho_userId options)
      then bool_decide (Some (cs_userId s) = ho_userId options) else true)
  && match ho_startDate options with
     | Some startDate => startDate <=? cs_startedAt s
     | None => true
     end
  && match ho_endDate options with
     | Some endDate => cs_startedAt s <=? endDate
     | None => true
     end
  && (if isTruthy (ho_status options)
      then bool_decide (Some (cs_status s) = ho_status options) else true)
  && (if isTruthy (ho_outcome options)
      then existsb
             (fun o => String.eqb (co_callSessionId o) (cs_id s)
                       && bool_decide
                            (Some (co_outcomeType o) = ho_outcome options))
             (callOutcome d)
      else true).


(** Modelled from the spec: [GetCallbacksOptions] of types/call.types, the
    callback listing query of section 6. *)
Record GetCallbacksOptions := mkGetCallbacksOptions {
  bo_page : option Z;
  bo_limit : option Z;
  bo_agentId : option Z;
  bo_status : option string;
  bo_scheduledFrom : option Z;
  bo_scheduledTo : option Z
}.

(** [select: { firstName, lastName }] *)
Record AgentName := mkAgentName {
  an_firstName : string;
  an_lastName : string
}.

Record CallbackUser := mkCallbackUser {
  cu_firstName : string;
  cu_lastName : string;
  cu_phoneNumber : string
}.

(** Modelled from the spec: an entry of [CallbacksResult.callbacks], the
    callback row with the user and the preferred agent. *)
Record CallbackWithContext := mkCallbackWithContext {
  bc_callback : Callback;
  bc_user : CallbackUser;
  bc_preferredAgent : option AgentName
}.

Record CallbacksResult := mkCallbacksResult {
  br_callbacks : list CallbackWithContext;
  br_meta : PageMeta
}.

(** The [where] object of [getCallbacks]. *)
Definition callbacksWhere (options : GetCallbacksOptions) (c : Callback)
  : bool :=
  (if isTruthy (bo_agentId options)
   then bool_decide (cb_preferredAgentId c = bo_agentId options) else true)
  && (if isTruthy (bo_status options)
      then bool_decide (Some (cb_status c) = bo_status options) else true)
  && match bo_scheduledFrom options with
     | Some scheduledFrom => scheduledFrom <=? cb_scheduledFor c
     | None => true
     end
  && match bo_scheduledTo options with
     | Some scheduledTo => cb_scheduledFor c <=? scheduledTo
     | None => true
     end.

Definition getCallbacks (agents : list Agent) (options : GetCallbacksOptions)
  : M CallbacksResult :=
  let page := default 1 (bo_page options) in
  let limit := default 20 (bo_limit options) in
  d ← getDb;
  let where_ := callbacksWhere options in
  let callbacks :=
    paginate page limit
      (merge_sort (ascBy cb_scheduledFor) (List.filter where_ (callback d))) in
  let total := count where_ (callback d) in
  let callbacksWithContext :=
    map (fun callback =>
           let userContext := getUserCallContext (cb_userId callback) in
           mkCallbackWithContext callback
             (mkCallbackUser (uc_firstName userContext)
                (uc_lastName userContext) (uc_phoneNumber userContext))
             (match cb_preferredAgentId callback with
              | Some agentId =>
                  (fun a => mkAgentName (ag_firstName a) (ag_lastName a))
                    <$> agentOf agents agentId
              | None => None
              end))
        callbacks in
  mret (mkCallbacksResult callbacksWithContext
          (mkPageMeta page limit total
             (Math_ceil (jsDiv (ofZ total) (ofZ limit))))).


(** What the [where] object of [getCallbacks] asks of a callback. *)
Definition CallbackMatch (options : GetCallbacksOptions) (c : Callback)
  : Prop :=
  (forall a, bo_agentId options = Some a -> a <> 0 ->
   cb_preferredAgentId c = Some a)
  /\ (forall st, bo_status options = Some st -> st <> "" -> cb_status c = st)
  /\ (forall t, bo_scheduledFrom options = Some t -> t <= cb_scheduledFor c)
  /\ (forall t, bo_scheduledTo options = Some t -> cb_scheduledFor c <= t).

(** The same history query for another page, and the sessions on it. *)
Definition atPage (page : Z) (options : GetCallHistoryOptions)
  : GetCallHistoryOptions :=
  mkGetCallHistoryOptions (Some page) (ho_limit options) (ho_agentId options)
    (ho_userId options) (ho_startDate options) (ho_endDate options)
    (ho_outcome options) (ho_status options).


(** Agents and a history query for the samples: the calls of agent 1, two
    to a page. *)
Definition sampleAgents : list Agent :=
  [ mkAgent 1 "ann@example.com" "Ann" "Lee" "agent" true;
    mkAgent 2 "bob@example.com" "Bob" "Ray" "supervisor" true ].



(** Three callbacks, two of them for agent 1, and a listing of the pending
    callbacks of agent 1. *)
Definition callbackDb : Db :=
  mkDb [] [] ∅
    [ mkCallback "c1" 7 9000 None (Some 1) "s1" "pending" None;
      mkCallback "c2" 8 5000 None (Some 2) "s2" "pending" None;
      mkCallback "c3" 9 3000 None (Some 1) "s3" "pending" None ]
    [] [].

Definition agentOneCallbacks : GetCallbacksOptions :=
  mkGetCallbacksOptions None None (Some 1) (Some "pending") None None.

(** ** The tRPC procedures that call the service *)

(** [ctx.agent], as the authentication layer provides it. *)
Record Ctx := mkCtx {
  ctx_agentId : Z;
  ctx_role : string
}.

Inductive TRPCError :=
| mkTRPCError (code message : string).

(** A procedure body: a result or a [TRPCError], and the world after. *)
Definition Proc (A : Type) : Type := World -> (TRPCError + A) * World.

(** [try { return await c } catch (error) { throw new TRPCError(e) }] *)
Definition tryCatch {A} (c : M A) (e : TRPCError) : Proc A := fun w =>
  match c w with
  | (inl _, w') => (inl e, w')
  | (inr a, w') => (inr a, w')
  end.

(** The inputs, as their zod schemas leave them. *)
Record InitiateCallInput := mkInitiateCallInput {
  ii_userId : Z;
  ii_queueId : option string;
  ii_phoneNumber : option string;
  ii_direction : string
}.

Record UpdateCallStatusInput := mkUpdateCallStatusInput {
  ui_sessionId : string;
  ui_status : option string;
  ui_twilioCallSid : option string;
  ui_connectedAt : option Z;
  ui_endedAt : option Z;
  ui_failureReason : option string
}.

Record RecordOutcomeInput := mkRecordOutcomeInput {
  ri_sessionId : string;
  ri_outcomeData : CallOutcomeOptions
}.

Definition proc_initiateCall (ctx : Ctx) (input : InitiateCallInput)
  : Proc CallSession :=
  let callOptions :=
    mkCallSessionOptions (ii_userId input) (ctx_agentId ctx)
      (ii_queueId input) (Some (ii_direction input)) (ii_phoneNumber input) in
  tryCatch (initiateCall callOptions)
    (mkTRPCError "BAD_REQUEST" "Failed to initiate call").

Definition proc_updateCallStatus (ctx : Ctx) (input : UpdateCallStatusInput)
  : Proc CallSession :=
  let sessionId := ui_sessionId input in
  let updateData :=
    mkCallUpdateOptions (ui_status input) (ui_twilioCallSid input)
      (ui_connectedAt input) (ui_endedAt input) in
  tryCatch (updateCallStatus sessionId updateData)
    (mkTRPCError "BAD_REQUEST" "Failed to update call status").

Definition proc_recordOutcome (ctx : Ctx) (input : RecordOutcomeInput)
  : Proc CallOutcome :=
  let sessionId := ri_sessionId input in
  let outcomeData := ri_outcomeData input in
  tryCatch (recordCallOutcome sessionId (ctx_agentId ctx) outcomeData)
    (mkTRPCError "BAD_REQUEST" "Failed to record call outcome").














(** The [where] object of [getCallHistoryTable], built from spreads: a key
    spread later replaces the same key spread earlier, so an end date
    replaces the [startedAt] condition of a start date. *)
Record StartedAtFilter := mkStartedAtFilter {
  sf_gte : option Z;
  sf_lte : option Z
}.

Definition historyTableStartedAt (filters : GetCallHistoryOptions)
  : option StartedAtFilter :=
  let afterStart :=
    match ho_startDate filters with
    | Some startDate => Some (mkStartedAtFilter (Some startDate) None)
    | None => None
    end in
  match ho_endDate filters with
  | Some endDate => Some (mkStartedAtFilter None (Some endDate))
  | None => afterStart
  end.

Definition historyTableWhere (filters : GetCallHistoryOptions)
    (s : CallSession) : bool :=
  (if isTruthy (ho_agentId filters)
   then bool_decide (Some (cs_agentId s) = ho_agentId filters) else true)
  && (if isTruthy (ho_userId filters)
      then bool_decide (Some (cs_userId s) = ho_userId filters) else true)
  && match historyTableStartedAt filters with
     | Some f =>
         match sf_gte f with
         | Some t => t <=? cs_startedAt s
         | None => true
         end
         && match sf_lte f with
            | Some t => cs_startedAt s <=? t
            | None => true
            end
     | None => true
     end
  && (if isTruthy (ho_status filters)
      then bool_decide (Some (cs_status s) = ho_status filters) else true).

(** The [total] of [getCallHistoryTable]: [count({ where })]. *)
Definition historyTableTotal (filters : GetCallHistoryOptions) (d : Db) : Z :=
  count (historyTableWhere filters) (callSession d).

(** Callers for the samples: agent 1 with the role [agent], agent 2 with
    the role [supervisor]. *)
Definition agentCtx : Ctx := mkCtx 1 "agent".
Definition supervisorCtx : Ctx := mkCtx 2 "supervisor".


(** The same history filters with another start date. *)
Definition withStartDate (startDate : option Z)
    (filters : GetCallHistoryOptions) : GetCallHistoryOptions :=
  mkGetCallHistoryOptions (ho_page filters) (ho_limit filters)
    (ho_agentId filters) (ho_userId filters) startDate (ho_endDate filters)
    (ho_outcome filters) (ho_status filters).

(** Calls started between 2500 and 5000. *)
Definition dateRangeFilters : GetCallHistoryOptions :=
  mkGetCallHistoryOptions (Some 1) (Some 20) None None (Some 2500)
    (Some 5000) None None.

(** ** Display helpers of the call history table *)

(** [s.padStart(targetLength, pad)] for a one-character pad. *)
Definition padStart (targetLength : nat) (pad : Ascii.ascii) (s : string)
  : string :=
  String.append
    (string_of_list_ascii (repeat pad (targetLength - String.length s))) s.

(** [formatDuration] of the call history table: minutes and seconds of a
    duration in seconds, [N/A] when there is none (or 0). *)
Definition formatDuration (seconds : option Z) : string :=
  if negb (isTruthy seconds) then "N/A"
  else
    let seconds := default 0 seconds in
    let mins := seconds / 60 in
    let secs := Z.rem seconds 60 in
    String.append (numberToString mins)
      (String.append ":" (padStart 2 "0"%char (numberToString secs))).

(** Reading a duration back: the text before the first colon as minutes,
    the text after it as seconds. *)
Fixpoint splitColon (s : string) : option (string * string) :=
  match s with
  | EmptyString => None
  | String c rest =>
      if Ascii.eqb c ":"%char then Some (EmptyString, rest)
      else match splitColon rest with
           | Some (a, b) => Some (String c a, b)
           | None => None
           end
  end.

Definition parseDuration (s : string) : option Z :=
  match splitColon s with
  | Some (m, r) =>
      match NilZero.int_of_string m, NilZero.int_of_string r with
      | Some mins, Some secs => Some (60 * Z.of_int mins + Z.of_int secs)
      | _, _ => None
      end
  | None => None
  end.

(** [\w] of a regular expression without flags: an ASCII letter, a digit or
    the underscore.  Strings are read character by character; a character
    outside ASCII is no word character in JavaScript, and neither are the
    bytes that encode it here. *)
Definition isWordChar (c : Ascii.ascii) : bool :=
  let n := Ascii.nat_of_ascii c in
  ((97 <=? n) && (n <=? 122))%nat
  || ((65 <=? n) && (n <=? 90))%nat
  || ((48 <=? n) && (n <=? 57))%nat
  || Ascii.eqb c "_"%char.

(** [l.toUpperCase()] of a word character. *)
Definition toUpperCase (c : Ascii.ascii) : Ascii.ascii :=
  let n := Ascii.nat_of_ascii c in
  if ((97 <=? n) && (n <=? 122))%nat then Ascii.ascii_of_nat (n - 32) else c.

(** [s.replace(/_/g, ' ')] *)
Fixpoint replaceUnderscores (s : string) : string :=
  match s with
  | EmptyString => EmptyString
  | String c rest =>
      String (if Ascii.eqb c "_"%char then " "%char else c)
        (replaceUnderscores rest)
  end.

(** [s.replace(/\b\w/g, l => l.toUpperCase())]: a word character is matched
    when the character before it is none; [afterWord] tells whether the
    character before the text is one. *)
Fixpoint capitalizeWords (afterWord : bool) (s : string) : string :=
  match s with
  | EmptyString => EmptyString
  | String c rest =>
      String (if isWordChar c && negb afterWord then toUpperCase c else c)
        (capitalizeWords (isWordChar c) rest)
  end.

Definition getOutcomeDisplay (outcome : string) : string :=
  capitalizeWords false (replaceUnderscores outcome).

(** A text without underscores. *)
Definition noUnderscore (s : string) : Prop :=
  Forall (fun c => c <> "_"%char) (list_ascii_of_string s).

(** The alphabet of the outcome codes: lower-case letters, digits and the
    underscore. *)
Definition outcomeAlphabet : list Ascii.ascii :=
  list_ascii_of_string "abcdefghijklmnopqrstuvwxyz0123456789_".

Definition isOutcomeCode (s : string) : bool :=
  forallb (fun c => existsb (Ascii.eqb c) outcomeAlphabet)
    (list_ascii_of_string s).

(** ** The call outcome modal *)

Module CallOutcomeModal.

(** [formatDuration] of the modal: no [N/A] here, the call timer is always a
    number. *)
Definition formatDuration (seconds : Z) : string :=
  let mins := seconds / 60 in
  let secs := Z.rem seconds 60 in
  String.append (numberToString mins)
    (String.append ":" (padStart 2 "0"%char (numberToString secs))).

(** The state update of [handleDocumentToggle]: the new list of requested
    documents, from the previous one. *)
Definition handleDocumentToggle (docType : string) (prev : list string)
  : list string :=
  if includes prev docType
  then List.filter (fun d => negb (String.eqb d docType)) prev
  else prev ++ [docType].

(** [documentsRequested] after the document buttons in [clicks] were
    pressed, in that order; the state starts as the empty array and nothing
    else sets it. *)
Definition documentsRequested (clicks : list string) : list string :=
  foldl (fun prev docType => handleDocumentToggle docType prev) [] clicks.

End CallOutcomeModal.

(** * Properties *)

(** ** Running computations *)

Lemma withDb_id (w : World) : withDb (db w) w = w.
Proof. by destruct w. Qed.

Lemma bind_run {A B} (c : M A) (f : A -> M B) (w : World) :
  (c ≫= f) w =
  match c w with
  | (inl e, w') => (inl e, w')
  | (inr a, w') => f a w'
  end.
Proof. reflexivity. Qed.

Lemma transaction_ok {A} (body : M A) (w w' : World) (a : A) :
  body w = (inr a, w') -> transaction body w = (inr a, w').
Proof. unfold transaction. by intros ->. Qed.

Lemma transaction_rollback {A} (body : M A) (w w' : World) (e : exn) :
  body w = (inl e, w') -> transaction body w = (inl e, withDb (db w) w').
Proof. unfold transaction. by intros ->. Qed.

(** Unfolds the primitives of [M] so that a computation applied to a world
    reduces. *)
Ltac run :=
  unfold callSession_create, callSession_findUnique, callSession_findFirst,
    callSession_update, callOutcome_create, userCallScore_upsert,
    callback_create, agentSession_updateMany, callQueue_update,
    getUserClaims, when, getDb, putDb, newDate, newId, log, throw,
    mbind, M_bind, mret, M_ret in *;
  cbn [fst snd db logged clock reads uuid issued claimsJson withDb] in *.

(** ** The scoring tables *)

Lemma getScoreAdjustment_table :
  map getScoreAdjustment outcomeTypes = [-10; 5; 2; 50; 100; -20; 10; 0].
Proof. reflexivity. Qed.

(** Seven of the eight default delays are those of the table. *)
Lemma getDefaultDelayHours_table :
  map getDefaultDelayHours
    ["contacted"; "no_answer"; "busy"; "wrong_number"; "not_interested";
     "left_voicemail"; "failed"]
  = [24; 4; 2; 48; 48; 8; 1].
Proof. reflexivity. Qed.

Lemma delayMap_unrecognized (outcomeType : string) :
  outcomeType ∉ outcomeTypes -> delayMap !! outcomeType = None.
Proof.
  intros Hnot. unfold delayMap. cbn [list_to_map foldr fst snd uncurry].
  unfold outcomeTypes in Hnot.
  rewrite !lookup_insert_ne; [apply lookup_empty | ..];
    intros <-; apply Hnot; set_solver.
Qed.

Lemma adjustmentMap_unrecognized (outcomeType : string) :
  outcomeType ∉ outcomeTypes -> adjustmentMap !! outcomeType = None.
Proof.
  intros Hnot. unfold adjustmentMap. cbn [list_to_map foldr fst snd uncurry].
  unfold outcomeTypes in Hnot.
  rewrite !lookup_insert_ne; [apply lookup_empty | ..];
    intros <-; apply Hnot; set_solver.
Qed.

(** An outcome name outside the tables gets adjustment 0 and delay 4. *)
Lemma defaults_unrecognized (outcomeType : string) :
  outcomeType ∉ outcomeTypes ->
  getScoreAdjustment outcomeType = 0 /\ getDefaultDelayHours outcomeType = 4.
Proof.
  intros Hnot. unfold getScoreAdjustment, getDefaultDelayHours.
  by rewrite adjustmentMap_unrecognized, delayMap_unrecognized.
Qed.

Lemma calculateNextCallTime_run (outcomeType : string) (w : World) :
  fst (calculateNextCallTime outcomeType w)
  = inr (clock w (reads w) + getDefaultDelayHours outcomeType * 60 * 60 * 1000).
Proof. reflexivity. Qed.

(** C1 (defect of the code).  The delay table holds 0 for
    [callback_requested], yet [getDefaultDelayHours] answers 4: the entry 0 is
    falsy and [||] replaces it by the fallback.  So the delay that
    [calculateNextCallTime] adds for a callback request is four hours, not
    zero.  The score adjustments are those of the canonical table. *)
Theorem getDefaultDelayHours_callback_requested :
  delayMap !! "callback_requested" = Some 0
  /\ getDefaultDelayHours "callback_requested" = 4
  /\ (forall w : World,
        fst (calculateNextCallTime "callback_requested" w)
        = inr (clock w (reads w) + 4 * 60 * 60 * 1000))
  /\ map getScoreAdjustment outcomeTypes = [-10; 5; 2; 50; 100; -20; 10; 0].
Proof. repeat split. Qed.

(** ** Rows and their identifiers *)

Lemma hasId_refl (s : CallSession) : hasId (cs_id s) s = true.
Proof. unfold hasId. apply String.eqb_refl. Qed.

Lemma hasId_eq (id : string) (s : CallSession) :
  hasId id s = true -> cs_id s = id.
Proof. unfold hasId. apply String.eqb_eq. Qed.

Lemma find_is_Some {A} (p : A -> bool) (l : list A) (x : A) :
  In x l -> p x = true -> exists y, List.find p l = Some y.
Proof.
  intros Hin Hp. destruct (List.find p l) as [y|] eqn:Hfind; [by exists y|].
  pose proof (find_none p l Hfind x Hin) as Hfalse. congruence.
Qed.

Lemma updateFirst_None {A} (p : A -> bool) (f : A -> A) (l : list A) :
  List.find p l = None -> updateFirst p f l = None.
Proof.
  induction l as [|x l IH]; [done|]. cbn.
  destruct (p x); [done|]. intros Hnone. by rewrite IH.
Qed.

Lemma updateFirst_Some {A} (p : A -> bool) (f : A -> A) (l : list A) (x : A) :
  List.find p l = Some x ->
  exists l', updateFirst p f l = Some (f x, l')
             /\ (p (f x) = true -> List.find p l' = Some (f x)).
Proof.
  induction l as [|y l IH]; [done|]. cbn.
  destruct (p y) eqn:Hy.
  - intros [= ->]. exists (f x :: l). split; [done|].
    intros Hfx. cbn. by rewrite Hfx.
  - intros Hfind. destruct (IH Hfind) as (l' & -> & Hl').
    exists (y :: l'). split; [done|]. intros Hfx. cbn. rewrite Hy. auto.
Qed.

(** ** The outcome recorder refuses before it writes *)

(** C7.  [recordCallOutcome] on an unknown session id fails with the
    not-found error, and on a session assigned to another agent with the
    authorization error; in both cases the world it leaves is the world it
    found: no outcome row, no score update, no callback, agent sessions and
    queue untouched, nothing logged. *)
Theorem recordCallOutcome_rejected
    (sessionId : string) (agentId : Z) (outcome : CallOutcomeOptions)
    (w : World) :
  (List.find (hasId sessionId) (callSession (db w)) = None ->
   recordCallOutcome sessionId agentId outcome w
   = (inl (Error "Call session not found"), w))
  /\ (forall s : CallSession,
        List.find (hasId sessionId) (callSession (db w)) = Some s ->
        cs_agentId s <> agentId ->
        recordCallOutcome sessionId agentId outcome w
        = (inl (Error "Agent not authorized for this call session"), w)).
Proof.
  split.
  - intros Hnone. unfold recordCallOutcome.
    erewrite transaction_rollback; [by rewrite withDb_id|].
    run. by rewrite Hnone.
  - intros s Hsome Hagent. unfold recordCallOutcome.
    erewrite transaction_rollback; [by rewrite withDb_id|].
    run. rewrite Hsome.
    by destruct (Z.eqb_spec (cs_agentId s) agentId).
Qed.

Lemma recordCallOutcome_rejected_witness :
  recordCallOutcome "s9" 1 (plainOutcome "contacted")
    (worldAt sampleDb (fun _ => 0))
  = (inl (Error "Call session not found"), worldAt sampleDb (fun _ => 0))
  /\ recordCallOutcome "s1" 2 (plainOutcome "contacted")
       (worldAt sampleDb (fun _ => 0))
     = (inl (Error "Agent not authorized for this call session"),
        worldAt sampleDb (fun _ => 0)).
Proof.
  split.
  - apply (proj1 (recordCallOutcome_rejected "s9" 1 (plainOutcome "contacted")
                    (worldAt sampleDb (fun _ => 0)))).
    reflexivity.
  - apply (proj2 (recordCallOutcome_rejected "s1" 2 (plainOutcome "contacted")
                    (worldAt sampleDb (fun _ => 0))) sampleSession).
    + reflexivity.
    + simpl. lia.
Defined.

(** ** Status updates and the Twilio webhook *)

Lemma updateCallStatus_run (id : string) (u : CallUpdateOptions) (w : World)
    (s : CallSession) :
  List.find (hasId id) (callSession (db w)) = Some s ->
  let durationSeconds :=
    match uo_endedAt u with
    | Some endedAt => Some ((endedAt - clock w (reads w)) / 1000)
    | None => None
    end in
  exists w',
    updateCallStatus id u w = (inr (statusData u durationSeconds s), w')
    /\ List.find (hasId id) (callSession (db w'))
       = Some (statusData u durationSeconds s)
    /\ (exists rows, db w' = setCallSession rows (db w))
    /\ clock w' = clock w
    /\ reads w' = match uo_endedAt u with
                  | Some _ => S (reads w)
                  | None => reads w
                  end.
Proof.
  intros Hs dur.
  destruct (updateFirst_Some (hasId id) (statusData u dur) _ _ Hs)
    as (rows & Hupd & Hfind).
  assert (Hid : hasId id (statusData u dur s) = true).
  { apply find_some in Hs as [_ Hs]. exact Hs. }
  specialize (Hfind Hid).
  unfold updateCallStatus; subst dur.
  destruct (uo_endedAt u) as [e|]; run; rewrite Hupd; cbn;
    eexists; (split; [reflexivity|]); cbn; eauto.
Qed.

#[local] Arguments updateCallStatus : simpl never.

Lemma endsCall_in_progress : endsCall "in-progress" = false.
Proof. reflexivity. Qed.

(** What a webhook for a known call does: the row that carries the id of the
    matched session is rewritten with [statusData], and no other table is
    touched. *)
Lemma handleTwilioWebhook_matched (wd : TwilioWebhookData) (w : World)
    (s x : CallSession) :
  List.find (hasSid (wh_CallSid wd)) (callSession (db w)) = Some s ->
  List.find (hasId (cs_id s)) (callSession (db w)) = Some x ->
  exists w' u durationSeconds,
    handleTwilioWebhook wd w = (inr tt, w')
    /\ List.find (hasId (cs_id s)) (callSession (db w'))
       = Some (statusData u durationSeconds x)
    /\ (exists rows, db w' = setCallSession rows (db w))
    /\ uo_status u = Some (mapTwilioStatus (wh_CallStatus wd))
    /\ uo_twilioCallSid u = None
    /\ (is_Some (cs_connectedAt s) -> uo_connectedAt u = None)
    /\ (wh_CallStatus wd <> "in-progress" -> uo_connectedAt u = None)
    /\ (wh_CallStatus wd = "in-progress" -> cs_connectedAt s = None ->
        uo_connectedAt u = Some (clock w (reads w)))
    /\ (endsCall (wh_CallStatus wd) = true ->
        uo_connectedAt u = None
        /\ uo_endedAt u = Some (clock w (reads w))
        /\ durationSeconds
           = Some ((clock w (reads w) - clock w (S (reads w))) / 1000))
    /\ (endsCall (wh_CallStatus wd) = false ->
        uo_endedAt u = None /\ durationSeconds = None).
Proof.
  intros Hs Hx. unfold handleTwilioWebhook.
  rewrite bind_run. unfold callSession_findFirst. run. rewrite Hs.
  destruct (String.eqb_spec (wh_CallStatus wd) "in-progress") as [Hst|Hst];
    [rewrite Hst, endsCall_in_progress;
     destruct (cs_connectedAt s) as [t|] eqn:Hc
    |destruct (endsCall (wh_CallStatus wd)) eqn:Hend];
    cbn -[updateCallStatus];
    match goal with
    | |- context [updateCallStatus ?i ?u ?W] =>
        destruct (updateCallStatus_run i u W x Hx)
          as (w' & Hrun & Hfind & [rows Hdb] & _);
        rewrite Hrun; exists (after (log LInfo "Twilio webhook processed") w'), u
    end;
    cbn in *; eexists; (split; [reflexivity|]);
    (split; [exact Hfind|]); rewrite Hdb;
    repeat split; eauto; try done.
Qed.


Lemma matched_has_row (sid : string) (rows : list CallSession)
    (s : CallSession) :
  List.find (hasSid sid) rows = Some s ->
  exists x, List.find (hasId (cs_id s)) rows = Some x.
Proof.
  intros Hs. apply find_some in Hs as [Hin _].
  eapply find_is_Some; [exact Hin | apply hasId_refl].
Qed.

(** The webhook handler writes to the session table only. *)
Lemma handleTwilioWebhook_frame (wd : TwilioWebhookData) (w : World) :
  exists rows,
    db (after (handleTwilioWebhook wd) w) = setCallSession rows (db w).
Proof.
  destruct (List.find (hasSid (wh_CallSid wd)) (callSession (db w)))
    as [s|] eqn:Hs.
  - destruct (matched_has_row _ _ _ Hs) as [x Hx].
    destruct (handleTwilioWebhook_matched wd w s x Hs Hx)
      as (w' & u & d & Hrun & _ & Hdb & _).
    unfold after. by rewrite Hrun.
  - exists (callSession (db w)). unfold after, handleTwilioWebhook.
    rewrite bind_run. unfold callSession_findFirst. run. rewrite Hs.
    by destruct (db w).
Qed.



(** A terminal event stamps [endedAt] with the handler's reading of the clock
    and stores as duration the distance from that stamp to the later reading
    of [updateCallStatus]; [startedAt] plays no part, and the talk time is
    left as it was. *)
Lemma handleTwilioWebhook_terminal (wd : TwilioWebhookData) (w : World)
    (s : CallSession) :
  List.find (hasSid (wh_CallSid wd)) (callSession (db w)) = Some s ->
  List.find (hasId (cs_id s)) (callSession (db w)) = Some s ->
  endsCall (wh_CallStatus wd) = true ->
  exists w' s',
    handleTwilioWebhook wd w = (inr tt, w')
    /\ List.find (hasId (cs_id s)) (callSession (db w')) = Some s'
    /\ cs_endedAt s' = Some (clock w (reads w))
    /\ cs_durationSeconds s'
       = Some ((clock w (reads w) - clock w (S (reads w))) / 1000)
    /\ cs_talkTimeSeconds s' = cs_talkTimeSeconds s
    /\ cs_connectedAt s' = cs_connectedAt s
    /\ cs_startedAt s' = cs_startedAt s.
Proof.
  intros Hs Hx Hend.
  destruct (handleTwilioWebhook_matched wd w s s Hs Hx)
    as (w' & u & d & Hrun & Hfind & _ & _ & _ & _ & _ & _ & Hterm & _).
  destruct (Hterm Hend) as (Hc & He & Hd).
  exists w', (statusData u d s). split; [exact Hrun|]. split; [exact Hfind|].
  cbn. rewrite Hc, He, Hd. by cbn.
Qed.

(** With a clock that does not run backwards the stored duration of a
    webhook-ended call is never positive. *)
Lemma handleTwilioWebhook_duration_nonpositive (wd : TwilioWebhookData)
    (w : World) (s : CallSession) :
  (forall n, clock w n <= clock w (S n)) ->
  List.find (hasSid (wh_CallSid wd)) (callSession (db w)) = Some s ->
  List.find (hasId (cs_id s)) (callSession (db w)) = Some s ->
  endsCall (wh_CallStatus wd) = true ->
  exists s' d,
    List.find (hasId (cs_id s))
      (callSession (db (after (handleTwilioWebhook wd) w))) = Some s'
    /\ cs_durationSeconds s' = Some d /\ d <= 0.
Proof.
  intros Hmono Hs Hx Hend.
  destruct (handleTwilioWebhook_terminal wd w s Hs Hx Hend)
    as (w' & s' & Hrun & Hfind & _ & Hd & _).
  unfold after. rewrite Hrun. exists s'. eexists. split; [exact Hfind|].
  split; [exact Hd|].
  specialize (Hmono (reads w)). apply Z.div_le_upper_bound; lia.
Qed.

(** A session that is connected keeps its [connectedAt] through every later
    webhook, whatever its status. *)
Lemma handleTwilioWebhook_keeps_connectedAt (wd : TwilioWebhookData)
    (w : World) (s : CallSession) :
  List.find (hasSid (wh_CallSid wd)) (callSession (db w)) = Some s ->
  List.find (hasId (cs_id s)) (callSession (db w)) = Some s ->
  is_Some (cs_connectedAt s) ->
  exists w' s',
    handleTwilioWebhook wd w = (inr tt, w')
    /\ List.find (hasId (cs_id s)) (callSession (db w')) = Some s'
    /\ cs_connectedAt s' = cs_connectedAt s.
Proof.
  intros Hs Hx Hconn.
  destruct (handleTwilioWebhook_matched wd w s s Hs Hx)
    as (w' & u & d & Hrun & Hfind & _ & _ & _ & Hkeep & _).
  exists w', (statusData u d s). split; [exact Hrun|]. split; [exact Hfind|].
  cbn. by rewrite (Hkeep Hconn).
Qed.

(** No webhook changes a score or adds an outcome. *)
Lemma handleTwilioWebhook_scores (wd : TwilioWebhookData) (w : World) :
  userCallScore (db (after (handleTwilioWebhook wd) w)) = userCallScore (db w)
  /\ callOutcome (db (after (handleTwilioWebhook wd) w)) = callOutcome (db w).
Proof.
  destruct (handleTwilioWebhook_frame wd w) as [rows ->]. by split.
Qed.

(** C4 (defect of the code).  The sample call is dialled at 0 s, connected by
    an in-progress webhook at 5 s and ended by a completed webhook at 130 s.
    The session then holds [endedAt] = 130 s and [connectedAt] = 5 s, but
    [durationSeconds] is -1, not 130: [updateCallStatus] subtracts a fresh
    reading of the clock from [endedAt], not [startedAt].  And
    [talkTimeSeconds] is absent, not 125: it is computed only when
    [connectedAt] arrives in the same update as [endedAt], which the webhook
    handler never does. *)
Theorem webhook_duration_and_talk_time :
  exists s,
    List.find (hasId "s1") (callSession (db endedWorld)) = Some s
    /\ cs_status s = "completed"
    /\ cs_startedAt s = 0
    /\ cs_connectedAt s = Some 5000
    /\ cs_endedAt s = Some 130000
    /\ cs_durationSeconds s = Some (-1)
    /\ cs_talkTimeSeconds s = None.
Proof. eexists. split; [vm_compute; reflexivity|]. by repeat split. Qed.

(** C5 (defect of the code).  A second delivery of the same completed event,
    handled at 190 s, stamps [endedAt] again: the session that ended at 130 s
    now says 190 s.  The guard that protects [connectedAt] has no counterpart
    for [endedAt].  The replay touches neither scores nor outcomes. *)
Theorem webhook_replay_restamps_endedAt :
  (cs_endedAt <$> List.find (hasId "s1") (callSession (db endedWorld)))
  = Some (Some 130000)
  /\ (cs_endedAt <$> List.find (hasId "s1") (callSession (db replayedWorld)))
     = Some (Some 190000)
  /\ userCallScore (db replayedWorld) = userCallScore (db endedWorld)
  /\ callOutcome (db replayedWorld) = callOutcome (db endedWorld).
Proof.
  split; [vm_compute; reflexivity|]. split; [vm_compute; reflexivity|].
  apply handleTwilioWebhook_scores.
Qed.

(** ** Scoring *)

Lemma updateUserScoreAfterCall_run (userId : Z) (outcomeType : string)
    (scoreAdjustment : option Z) (w : World) :
  updateUserScoreAfterCall userId outcomeType scoreAdjustment w
  = (inr tt,
     mkWorld
       (setUserCallScore
          (<[userId := scoreAfterCall userId outcomeType scoreAdjustment w]>
             (userCallScore (db w)))
          (db w))
       (logged w) (clock w) (4 + reads w) (uuid w) (issued w) (claimsJson w)).
Proof. reflexivity. Qed.

#[local] Arguments updateUserScoreAfterCall : simpl never.

(** An explicit adjustment other than 0 is the one applied. *)
Lemma explicit_adjustment_wins (outcomeType : string) (a : Z) :
  a <> 0 -> jsOr (Some a) (getScoreAdjustment outcomeType) = a.
Proof.
  intros Ha. unfold jsOr, truthy, Z_truthy.
  by destruct (Z.eqb_spec a 0).
Qed.

(** An explicit adjustment of 0 is replaced by the default. *)
Lemma explicit_zero_adjustment_lost (outcomeType : string) :
  jsOr (Some 0) (getScoreAdjustment outcomeType)
  = getScoreAdjustment outcomeType.
Proof. reflexivity. Qed.

(** The first outcome of a user seeds the row; the score it seeds is not
    negative and the delay is the default one of the outcome type. *)
Lemma scoreAfterCall_fresh (userId : Z) (outcomeType : string)
    (scoreAdjustment : option Z) (w : World) :
  userCallScore (db w) !! userId = None ->
  let r := scoreAfterCall userId outcomeType scoreAdjustment w in
  ucs_currentScore r
  = Z.max 0 (jsOr scoreAdjustment (getScoreAdjustment outcomeType))
  /\ 0 <= ucs_currentScore r
  /\ ucs_totalAttempts r = 1
  /\ ucs_lastOutcome r = Some outcomeType
  /\ ucs_nextCallAfter r
     = Some (clock w (reads w)
             + getDefaultDelayHours outcomeType * 60 * 60 * 1000).
Proof.
  intros Hnone. unfold scoreAfterCall. rewrite Hnone. cbn.
  repeat split. lia.
Qed.

(** A later outcome adds the adjustment to the score as it is, without a
    floor, and counts one more attempt. *)
Lemma scoreAfterCall_known (userId : Z) (outcomeType : string)
    (scoreAdjustment : option Z) (w : World) (r0 : UserCallScore) :
  userCallScore (db w) !! userId = Some r0 ->
  let r := scoreAfterCall userId outcomeType scoreAdjustment w in
  ucs_currentScore r
  = ucs_currentScore r0
    + jsOr scoreAdjustment (getScoreAdjustment outcomeType)
  /\ ucs_totalAttempts r = ucs_totalAttempts r0 + 1
  /\ ucs_lastOutcome r = Some outcomeType
  /\ ucs_nextCallAfter r
     = Some (clock w (reads w)
             + getDefaultDelayHours outcomeType * 60 * 60 * 1000).
Proof.
  intros Hsome. unfold scoreAfterCall. rewrite Hsome. by cbn.
Qed.

(** At the scoring layer, the attempts of a user grow by the number of
    outcomes scored, whatever the outcomes. *)
Lemma scoreAll_attempts (userId : Z) (outcomes : list (string * option Z)) :
  forall w : World,
    attemptsOf userId (after (scoreAll userId outcomes) w)
    = attemptsOf userId w + Z.of_nat (length outcomes).
Proof.
  induction outcomes as [|[outcomeType a] rest IH]; intros w.
  - cbn. lia.
  - unfold after in *. cbn [scoreAll]. rewrite bind_run.
    rewrite updateUserScoreAfterCall_run. rewrite IH.
    unfold attemptsOf at 1. cbn. rewrite lookup_insert_eq.
    unfold scoreAfterCall, attemptsOf.
    destruct (userCallScore (db w) !! userId); cbn [length]; cbn; lia.
Qed.

(** ** The outcome recorder *)

(** What a successful [recordCallOutcome] has done, table by table. *)
Lemma recordCallOutcome_success (sessionId : string) (agentId : Z)
    (outcome : CallOutcomeOptions) (w w' : World) (out : CallOutcome) :
  recordCallOutcome sessionId agentId outcome w = (inr out, w') ->
  exists s,
    List.find (hasId sessionId) (callSession (db w)) = Some s
    /\ cs_agentId s = agentId
    /\ out = outcomeData (uuid w (issued w)) sessionId agentId outcome
    /\ callSession (db w') = callSession (db w)
    /\ callOutcome (db w') = (callOutcome (db w) ++ [out])%list
    /\ userCallScore (db w')
       = <[cs_userId s :=
             scoreAfterCall (cs_userId s) (oo_outcomeType outcome)
               (oo_scoreAdjustment outcome) w]> (userCallScore (db w))
    /\ callback (db w')
       = (callback (db w)
          ++ callbacksOf (uuid w (S (issued w))) s sessionId agentId outcome)%list
    /\ agentSession (db w')
       = (if callEnded (cs_status s)
          then updateMany (onThisCall agentId sessionId)
                 (releaseAgent s (clock w (4 + reads w))) (agentSession (db w))
          else agentSession (db w))
    /\ (cs_callQueueId s = "" -> callQueue (db w') = callQueue (db w))
    /\ logged w' = (logged w ++ [(LInfo, "Call outcome recorded")])%list.
Proof.
  unfold recordCallOutcome, transaction.
  rewrite bind_run. unfold callSession_findUnique. run.
  destruct (List.find _ _) as [s|] eqn:Hs; [|done].
  destruct (Z.eqb_spec (cs_agentId s) agentId) as [Hagent|]; [|done].
  cbn -[updateUserScoreAfterCall]. rewrite updateUserScoreAfterCall_run.
  unfold callbacksOf. cbn.
  intros H. exists s.
  repeat case_match; simplify_eq; cbn; rewrite ?app_nil_r;
    repeat split; try done;
    intros Hqueue; rewrite Hqueue in *; discriminate.
Qed.


(** Each recorded outcome counts one attempt for the user of the session. *)
Lemma recordCallOutcome_attempts (sessionId : string) (agentId : Z)
    (outcome : CallOutcomeOptions) (w w' : World) (out : CallOutcome)
    (s : CallSession) :
  recordCallOutcome sessionId agentId outcome w = (inr out, w') ->
  List.find (hasId sessionId) (callSession (db w)) = Some s ->
  attemptsOf (cs_userId s) w' = attemptsOf (cs_userId s) w + 1.
Proof.
  intros Hrun Hs.
  destruct (recordCallOutcome_success _ _ _ _ _ _ Hrun)
    as (s' & Hs' & _ & _ & _ & _ & Hscore & _).
  assert (s' = s) as -> by congruence.
  unfold attemptsOf. rewrite Hscore, lookup_insert_eq.
  unfold scoreAfterCall. by destruct (userCallScore (db w) !! cs_userId s).
Qed.

(** The first outcome recorded for a user: the seeded score is
    [max 0 adjustment], and the next call is due after the default delay of
    the outcome type, whatever [nextCallDelayHours] says. *)
Lemma recordCallOutcome_fresh_user (sessionId : string) (agentId : Z)
    (outcome : CallOutcomeOptions) (w w' : World) (out : CallOutcome)
    (s : CallSession) :
  recordCallOutcome sessionId agentId outcome w = (inr out, w') ->
  List.find (hasId sessionId) (callSession (db w)) = Some s ->
  userCallScore (db w) !! cs_userId s = None ->
  exists r,
    userCallScore (db w') !! cs_userId s = Some r
    /\ ucs_currentScore r
       = Z.max 0 (jsOr (oo_scoreAdjustment outcome)
                    (getScoreAdjustment (oo_outcomeType outcome)))
    /\ ucs_totalAttempts r = 1
    /\ ucs_lastOutcome r = Some (oo_outcomeType outcome)
    /\ ucs_nextCallAfter r
       = Some (clock w (reads w)
               + getDefaultDelayHours (oo_outcomeType outcome) * 60 * 60 * 1000).
Proof.
  intros Hrun Hs Hnone.
  destruct (recordCallOutcome_success _ _ _ _ _ _ Hrun)
    as (s' & Hs' & _ & _ & _ & _ & Hscore & _).
  assert (s' = s) as -> by congruence.
  eexists. rewrite Hscore, lookup_insert_eq. split; [reflexivity|].
  pose proof (scoreAfterCall_fresh (cs_userId s) (oo_outcomeType outcome)
                (oo_scoreAdjustment outcome) w Hnone) as H.
  cbn in H. tauto.
Qed.

(** C2 (defect of the code).  User 7 has score 50; the agent records
    [no_answer] with an explicit adjustment of 0 and an explicit delay of 10
    hours.  The score becomes 55, not 50: the explicit 0 is falsy and [||]
    falls back to the default +5 (the outcome row stores 5 as well).  And the
    next call is due 4 hours after the reading of the clock, not 10: the
    explicit delay reaches the outcome row only, [calculateNextCallTime] is
    given the outcome type alone. *)
Theorem explicit_overrides_lost :
  oo_scoreAdjustment overridingOutcome = Some 0
  /\ oo_nextCallDelayHours overridingOutcome = Some 10
  /\ exists r out,
       userCallScore (db overriddenWorld) !! 7 = Some r
       /\ callOutcome (db overriddenWorld) = [out]
       /\ ucs_currentScore r = 50 + 5
       /\ co_scoreAdjustment out = Some 5
       /\ co_nextCallDelayHours out = Some 10
       /\ ucs_nextCallAfter r = Some (outcomeClock 0 + 4 * 60 * 60 * 1000).
Proof.
  split; [reflexivity|]. split; [reflexivity|].
  eexists _, _. split; [vm_compute; reflexivity|].
  split; [vm_compute; reflexivity|]. by repeat split.
Qed.

(** C3 (defect of the code).  Two [contacted] outcomes for a user without a
    score: the first seeds the score at [max 0 (-10)] = 0, the second adds
    -10 to it and leaves -10.  The floor is applied when the row is created
    and not when it is incremented.  The attempts are counted as claimed: 1,
    then 2. *)
Theorem score_goes_negative :
  exists r1 r2,
    userCallScore (db contactedOnce) !! 7 = Some r1
    /\ userCallScore (db contactedTwice) !! 7 = Some r2
    /\ ucs_currentScore r1 = 0
    /\ ucs_totalAttempts r1 = 1
    /\ ucs_currentScore r2 = -10
    /\ ucs_totalAttempts r2 = 2
    /\ length (callOutcome (db contactedTwice)) = 2%nat.
Proof.
  eexists _, _. split; [vm_compute; reflexivity|].
  split; [vm_compute; reflexivity|]. by repeat split.
Qed.

(** C6 (defect of the code).  A callback request without overrides for a
    user without a score creates the row with score [max 0 (-20)] = 0, one
    attempt and the outcome type, as claimed; but the next call is due 4
    hours after the reading of the clock, where the delay table says 0.
    This is the defect of [getDefaultDelayHours] shown for C1.  With an
    explicit delay of 10 hours the next call is due after 4 hours all the
    same. *)
Theorem callback_request_on_fresh_user :
  userCallScore sampleDb !! 7 = None
  /\ delayMap !! "callback_requested" = Some 0
  /\ (exists r,
        userCallScore (db callbackRequested) !! 7 = Some r
        /\ ucs_currentScore r = Z.max 0 (-20)
        /\ ucs_totalAttempts r = 1
        /\ ucs_lastOutcome r = Some "callback_requested"
        /\ ucs_nextCallAfter r = Some (outcomeClock 0 + 4 * 60 * 60 * 1000))
  /\ (exists r,
        userCallScore (db callbackDelayed) !! 7 = Some r
        /\ oo_nextCallDelayHours delayedCallback = Some 10
        /\ ucs_nextCallAfter r = Some (outcomeClock 0 + 4 * 60 * 60 * 1000)).
Proof.
  split; [reflexivity|]. split; [reflexivity|].
  split; (eexists; split; [vm_compute; reflexivity|]; by repeat split).
Qed.

(** ** Calls that do not come from the queue *)





(** ** Analytics *)

Lemma Qeq_bool_inject_Z_pos (n : Z) :
  0 < n -> Qeq_bool (inject_Z n) 0 = false.
Proof.
  intros Hn. destruct (Qeq_bool (inject_Z n) 0) eqn:E; [|done].
  apply Qeq_bool_iff in E. unfold Qeq in E. cbn in E. lia.
Qed.

(** The rounding to two decimals of a quotient by 60 is a number. *)
Lemma minutes_defined (a : Q) :
  exists q,
    jsDiv (Math_round (jsMul (jsDiv (Num a) (ofZ 60)) (ofZ 100))) (ofZ 100)
    = Num q.
Proof. by eexists. Qed.

(** C10.  [getCallAnalytics] answers for every filter and every store, reads
    only, and every field of its answer is a number: no division has a zero
    divisor.  When no session matches, the contact rate is 0; when an average
    is null, the corresponding minutes are 0. *)
Theorem getCallAnalytics_defined (filters : CallAnalyticsFilters)
    (w : World) :
  exists a,
    getCallAnalytics filters w = (inr a, w)
    /\ totalCalls a = count (sessionWhere filters) (callSession (db w))
    /\ (exists q, avgDurationMinutes a = Num q)
    /\ (exists q, avgTalkTimeMinutes a = Num q)
    /\ (exists q, contactRate a = Num q)
    /\ (count (sessionWhere filters) (callSession (db w)) = 0 ->
        contactRate a = ofZ 0)
    /\ (avg (omap cs_durationSeconds
               (List.filter (sessionWhere filters) (callSession (db w))))
        = None -> avgDurationMinutes a = ofZ 0)
    /\ (avg (omap cs_talkTimeSeconds
               (List.filter (sessionWhere filters) (callSession (db w))))
        = None -> avgTalkTimeMinutes a = ofZ 0).
Proof.
  unfold getCallAnalytics. run.
  eexists. split; [reflexivity|]. cbn [totalCalls avgDurationMinutes
    avgTalkTimeMinutes contactRate].
  split; [reflexivity|].
  split; [|split; [|split; [|split; [|split]]]].
  - destruct (avg _) as [a|]; [destruct (truthy a)|];
      eauto using minutes_defined; by eexists.
  - destruct (avg _) as [a|]; [destruct (truthy a)|];
      eauto using minutes_defined; by eexists.
  - destruct (Z.ltb_spec 0 (count (sessionWhere filters) (callSession (db w))))
      as [Hpos|Hzero]; [|by eexists].
    unfold jsDiv, ofZ. rewrite (Qeq_bool_inject_Z_pos _ Hpos). by eexists.
  - intros ->. reflexivity.
  - intros ->. reflexivity.
  - intros ->. reflexivity.
Qed.

Lemma getCallAnalytics_defined_witness :
  exists a,
    getCallAnalytics idleAgentFilters (worldAt sampleDb outcomeClock)
    = (inr a, worldAt sampleDb outcomeClock)
    /\ totalCalls a = 0
    /\ contactRate a = ofZ 0
    /\ avgDurationMinutes a = ofZ 0
    /\ avgTalkTimeMinutes a = ofZ 0.
Proof.
  destruct (getCallAnalytics_defined idleAgentFilters
              (worldAt sampleDb outcomeClock))
    as (a & Hrun & Htotal & _ & _ & _ & Hrate & Hduration & Htalk).
  exists a. split; [exact Hrun|]. split; [exact Htotal|].
  split; [apply Hrate; reflexivity|].
  split; [apply Hduration; reflexivity|apply Htalk; reflexivity].
Defined.

(** * Further properties *)

(** ** Runs that succeed *)

Lemma succeeds_run {A} (c : M A) (w : World) :
  succeeds c w = true -> exists a w', c w = (inr a, w').
Proof.
  unfold succeeds. destruct (c w) as [[e|a] w']; cbn; [done|eauto].
Qed.

(** ** Updating one row *)

Lemma updateFirst_insert {A} (p : A -> bool) (f : A -> A) (l : list A)
    (y : A) (l' : list A) :
  updateFirst p f l = Some (y, l') ->
  exists i x,
    l !! i = Some x /\ List.find p l = Some x /\ y = f x
    /\ l' = <[i := f x]> l.
Proof.
  revert l'. induction l as [|z l IH]; intros l'; [done|]. cbn.
  destruct (p z) eqn:Hz.
  - intros [= <- <-]. by exists 0%nat, z.
  - destruct (updateFirst p f l) as [[y' l'']|] eqn:Hupd; [|done].
    intros [= <- <-]. destruct (IH _ eq_refl) as (i & x & Hi & Hfind & -> & ->).
    by exists (S i), x.
Qed.

Lemma updateMany_lookup {A} (p : A -> bool) (f : A -> A) (l : list A)
    (i : nat) :
  updateMany p f l !! i = (fun x => if p x then f x else x) <$> l !! i.
Proof. unfold updateMany. apply list_lookup_fmap. Qed.

(** ** Initiating a call *)

Lemma initiateCall_success (options : CallSessionOptions) (w w' : World)
    (s : CallSession) :
  initiateCall options w = (inr s, w') ->
  s = mkCallSession (uuid w (issued w)) (so_userId options)
        (so_agentId options) (jsOr (so_queueId options) "") None "initiated"
        (default "outbound" (so_direction options)) (clock w (reads w))
        None None None None (Some (claimsJson w (so_userId options)))
  /\ callSession (db w') = (callSession (db w) ++ [s])%list
  /\ callOutcome (db w') = callOutcome (db w)
  /\ userCallScore (db w') = userCallScore (db w)
  /\ callback (db w') = callback (db w)
  /\ agentSession (db w')
     = updateMany (availableOrBreak (so_agentId options))
         (putOnCall (cs_id s) (clock w (S (reads w)))) (agentSession (db w))
  /\ (if isTruthy (so_queueId options)
      then exists q,
             updateFirst (hasQueueId (default "" (so_queueId options)))
               (setQueueStatus "assigned") (callQueue (db w))
             = Some (q, callQueue (db w'))
      else callQueue (db w') = callQueue (db w))
  /\ logged w' = (logged w ++ [(LInfo, "Call session initiated")])%list.
Proof.
  unfold initiateCall, transaction. run. cbn. intros H.
  repeat case_match; simplify_eq; cbn; repeat split; eauto.
Qed.

(** X1.  A call taken from a queue entry that exists: the call is created
    in status [initiated] with the entry's id as its [callQueueId], it is
    the last row of the session table, and exactly that queue entry is
    rewritten, to status [assigned]. *)
Theorem initiateCall_assigns_queue_entry (options : CallSessionOptions)
    (w : World) (queueId : string) (q : CallQueue) :
  so_queueId options = Some queueId ->
  queueId <> "" ->
  List.find (hasQueueId queueId) (callQueue (db w)) = Some q ->
  exists s w' i,
    initiateCall options w = (inr s, w')
    /\ cs_callQueueId s = queueId
    /\ cs_status s = "initiated"
    /\ cs_agentId s = so_agentId options
    /\ callSession (db w') = (callSession (db w) ++ [s])%list
    /\ callQueue (db w) !! i = Some q
    /\ callQueue (db w') = <[i := setQueueStatus "assigned" q]> (callQueue (db w)).
Proof.
  intros Hq Hne Hfind.
  destruct (updateFirst_Some (hasQueueId queueId) (setQueueStatus "assigned")
              _ _ Hfind) as (rows & Hupd & _).
  destruct (updateFirst_insert _ _ _ _ _ Hupd)
    as (i & x & Hi & Hfind' & _ & Hrows).
  assert (x = q) as -> by congruence.
  assert (Hfalse : String.eqb queueId "" = false).
  { by destruct (String.eqb_spec queueId ""). }
  unfold initiateCall, transaction. rewrite Hq. run.
  unfold isTruthy, jsOr, truthy, string_truthy. rewrite Hfalse.
  unfold hasQueueId in Hupd. cbn. rewrite Hupd. cbn.
  eexists _, _, i. split; [reflexivity|]. by cbn.
Qed.

Lemma initiateCall_assigns_queue_entry_witness :
  exists s w' i,
    initiateCall queueOptions (worldAt queueDb outcomeClock) = (inr s, w')
    /\ cs_callQueueId s = "q1"
    /\ cs_status s = "initiated"
    /\ cs_agentId s = 2
    /\ callSession (db w') = (callSession queueDb ++ [s])%list
    /\ callQueue queueDb !! i = Some sampleQueue
    /\ callQueue (db w')
       = <[i := setQueueStatus "assigned" sampleQueue]> (callQueue queueDb).
Proof.
  apply (initiateCall_assigns_queue_entry queueOptions
           (worldAt queueDb outcomeClock) "q1" sampleQueue);
    [reflexivity | discriminate | reflexivity].
Defined.



(** X3.  A successful [initiateCall] puts on the call exactly the agent
    sessions of the calling agent that were [available] or on [break]: each
    of them gets status [on_call] and the id of the new session; every other
    agent session (another agent's, or one already [on_call] or [offline])
    stays as it is, and no row is added or removed. *)
Theorem initiateCall_agent_sessions (options : CallSessionOptions)
    (w w' : World) (s : CallSession) :
  initiateCall options w = (inr s, w') ->
  length (agentSession (db w')) = length (agentSession (db w))
  /\ forall (i : nat) (a : AgentSession),
       agentSession (db w) !! i = Some a ->
       exists a',
         agentSession (db w') !! i = Some a'
         /\ as_id a' = as_id a
         /\ as_agentId a' = as_agentId a
         /\ as_callsCompletedToday a' = as_callsCompletedToday a
         /\ as_totalTalkTimeSeconds a' = as_totalTalkTimeSeconds a
         /\ (as_agentId a = so_agentId options ->
             as_status a = "available" \/ as_status a = "break" ->
             as_status a' = "on_call"
             /\ as_currentCallSessionId a' = Some (cs_id s))
         /\ (as_agentId a <> so_agentId options \/
             (as_status a <> "available" /\ as_status a <> "break") ->
             a' = a).
Proof.
  intros Hrun.
  destruct (initiateCall_success _ _ _ _ Hrun)
    as (_ & _ & _ & _ & _ & Hagents & _).
  rewrite Hagents. split; [unfold updateMany; by rewrite length_map|].
  intros i a Hi. rewrite updateMany_lookup, Hi. cbn.
  unfold availableOrBreak, includes. cbn.
  destruct (Z.eqb_spec (as_agentId a) (so_agentId options)) as [Hag|Hag];
    destruct (String.eqb_spec (as_status a) "available") as [Hav|Hav];
    destruct (String.eqb_spec (as_status a) "break") as [Hbr|Hbr];
    cbn; eexists; (split; [reflexivity|]); cbn;
    repeat split; try done; intros; intuition congruence.
Qed.

Lemma initiateCall_agent_sessions_witness :
  exists s w' a',
    initiateCall queueOptions (worldAt queueDb outcomeClock) = (inr s, w')
    /\ agentSession (db w') !! 1%nat = Some a'
    /\ as_status a' = "on_call"
    /\ as_currentCallSessionId a' = Some (cs_id s).
Proof.
  destruct (succeeds_run (initiateCall queueOptions)
              (worldAt queueDb outcomeClock)) as (s & w' & Hrun);
    [vm_compute; reflexivity|].
  destruct (proj2 (initiateCall_agent_sessions queueOptions
                     (worldAt queueDb outcomeClock) w' s Hrun)
              1%nat agentTwo eq_refl)
    as (a' & Hlookup & _ & _ & _ & _ & Hflip & _).
  exists s, w', a'. split; [exact Hrun|]. split; [exact Hlookup|].
  apply Hflip; [reflexivity | by left].
Defined.

(** ** Updating the status of a call *)

(** [updateCallStatus] on a known session rewrites the row that carries the
    id, in place. *)
Lemma updateCallStatus_row (id : string) (u : CallUpdateOptions) (w : World)
    (s : CallSession) :
  List.find (hasId id) (callSession (db w)) = Some s ->
  let durationSeconds :=
    match uo_endedAt u with
    | Some endedAt => Some ((endedAt - clock w (reads w)) / 1000)
    | None => None
    end in
  exists w' i,
    updateCallStatus id u w = (inr (statusData u durationSeconds s), w')
    /\ callSession (db w) !! i = Some s
    /\ db w'
       = setCallSession
           (<[i := statusData u durationSeconds s]> (callSession (db w)))
           (db w).
Proof.
  intros Hs dur.
  destruct (updateFirst_Some (hasId id) (statusData u dur) _ _ Hs)
    as (rows & Hupd & _).
  destruct (updateFirst_insert _ _ _ _ _ Hupd)
    as (i & x & Hi & Hfind & _ & Hrows).
  assert (x = s) as -> by congruence.
  unfold updateCallStatus; subst dur.
  destruct (uo_endedAt u) as [e|]; run; rewrite Hupd; cbn;
    eexists _, i; (split; [reflexivity|]); cbn; by rewrite Hrows.
Qed.

(** X4.  [updateCallStatus] on an id that no session carries fails with
    Prisma's record-not-found error; the store is not written and nothing
    is logged. *)
Theorem updateCallStatus_unknown_session (id : string)
    (u : CallUpdateOptions) (w : World) :
  List.find (hasId id) (callSession (db w)) = None ->
  exists w',
    updateCallStatus id u w = (inl (RecordNotFound "CallSession"), w')
    /\ db w' = db w
    /\ logged w' = logged w.
Proof.
  intros Hnone.
  pose proof (updateFirst_None (hasId id)) as Hupd.
  unfold updateCallStatus.
  destruct (uo_endedAt u) as [e|]; run; rewrite (Hupd _ _ Hnone); cbn;
    eexists; (split; [reflexivity|]); by cbn.
Qed.

Lemma updateCallStatus_unknown_session_witness :
  exists w',
    updateCallStatus "s9" (mkCallUpdateOptions (Some "failed") None None None)
      (worldAt sampleDb outcomeClock)
    = (inl (RecordNotFound "CallSession"), w')
    /\ db w' = sampleDb
    /\ logged w' = [].
Proof.
  apply (updateCallStatus_unknown_session "s9"
           (mkCallUpdateOptions (Some "failed") None None None)
           (worldAt sampleDb outcomeClock)).
  reflexivity.
Defined.

(** X5.  When one update carries both [connectedAt] and [endedAt], the talk
    time stored is the whole seconds between the two, and both stamps are
    stored as given. *)
Theorem updateCallStatus_talk_time (id : string) (u : CallUpdateOptions)
    (w : World) (s : CallSession) (connectedAt endedAt : Z) :
  List.find (hasId id) (callSession (db w)) = Some s ->
  uo_connectedAt u = Some connectedAt ->
  uo_endedAt u = Some endedAt ->
  exists w' s',
    updateCallStatus id u w = (inr s', w')
    /\ List.find (hasId id) (callSession (db w')) = Some s'
    /\ cs_connectedAt s' = Some connectedAt
    /\ cs_endedAt s' = Some endedAt
    /\ cs_talkTimeSeconds s' = Some ((endedAt - connectedAt) / 1000).
Proof.
  intros Hs Hc He.
  destruct (updateCallStatus_run id u w s Hs)
    as (w' & Hrun & Hfind & _).
  eexists w', _. split; [exact Hrun|]. split; [exact Hfind|].
  cbn. by rewrite Hc, He.
Qed.

Lemma updateCallStatus_talk_time_witness :
  exists w' s',
    updateCallStatus "s1"
      (mkCallUpdateOptions (Some "completed") None (Some 5000) (Some 130000))
      (worldAt sampleDb outcomeClock) = (inr s', w')
    /\ List.find (hasId "s1") (callSession (db w')) = Some s'
    /\ cs_connectedAt s' = Some 5000
    /\ cs_endedAt s' = Some 130000
    /\ cs_talkTimeSeconds s' = Some 125.
Proof.
  apply (updateCallStatus_talk_time "s1"
           (mkCallUpdateOptions (Some "completed") None (Some 5000)
              (Some 130000))
           (worldAt sampleDb outcomeClock) sampleSession 5000 130000);
    reflexivity.
Defined.

(** X6.  [updateCallStatus] writes one row and nothing else: the session
    table changes at the position of the session only, the other tables
    not at all; in the row, the columns that identify the call keep their
    values, and so does every column for which the update has no value. *)
Theorem updateCallStatus_frame (id : string) (u : CallUpdateOptions)
    (w : World) (s : CallSession) :
  List.find (hasId id) (callSession (db w)) = Some s ->
  exists w' s' i,
    updateCallStatus id u w = (inr s', w')
    /\ callSession (db w) !! i = Some s
    /\ db w' = setCallSession (<[i := s']> (callSession (db w))) (db w)
    /\ cs_id s' = cs_id s
    /\ cs_userId s' = cs_userId s
    /\ cs_agentId s' = cs_agentId s
    /\ cs_callQueueId s' = cs_callQueueId s
    /\ cs_direction s' = cs_direction s
    /\ cs_startedAt s' = cs_startedAt s
    /\ cs_userClaimsContext s' = cs_userClaimsContext s
    /\ (uo_status u = None -> cs_status s' = cs_status s)
    /\ (uo_twilioCallSid u = None -> cs_twilioCallSid s' = cs_twilioCallSid s)
    /\ (uo_connectedAt u = None -> cs_connectedAt s' = cs_connectedAt s)
    /\ (uo_endedAt u = None ->
        cs_endedAt s' = cs_endedAt s
        /\ cs_durationSeconds s' = cs_durationSeconds s
        /\ cs_talkTimeSeconds s' = cs_talkTimeSeconds s).
Proof.
  intros Hs.
  destruct (updateCallStatus_row id u w s Hs) as (w' & i & Hrun & Hi & Hdb).
  eexists w', _, i. split; [exact Hrun|]. split; [exact Hi|].
  split; [exact Hdb|]. cbn.
  repeat split; try done; try (intros ->; done);
    match goal with He : uo_endedAt u = None |- _ => by rewrite He end.
Qed.

Lemma updateCallStatus_frame_witness :
  exists w' s' i,
    updateCallStatus "s2" (mkCallUpdateOptions None (Some "CA7") None None)
      (worldAt queueDb outcomeClock) = (inr s', w')
    /\ callSession queueDb !! i = Some queuedSession
    /\ db w' = setCallSession (<[i := s']> (callSession queueDb)) queueDb
    /\ cs_status s' = "completed"
    /\ cs_endedAt s' = Some 130000.
Proof.
  destruct (updateCallStatus_frame "s2"
              (mkCallUpdateOptions None (Some "CA7") None None)
              (worldAt queueDb outcomeClock) queuedSession eq_refl)
    as (w' & s' & i & Hrun & Hi & Hdb & _ & _ & _ & _ & _ & _ & _ & Hstatus
        & _ & _ & Hended).
  exists w', s', i. split; [exact Hrun|]. split; [exact Hi|].
  split; [exact Hdb|]. split; [exact (Hstatus eq_refl)|].
  exact (proj1 (Hended eq_refl)).
Defined.

(** ** More on the outcome recorder *)

Lemma string_truthy_ne (s : string) : s <> "" -> truthy s = true.
Proof.
  intros Hne. unfold truthy, string_truthy.
  by destruct (String.eqb_spec s "").
Qed.

(** A call from the queue can be given an outcome by its agent when its
    queue entry is still there. *)
Lemma recordCallOutcome_with_queue (sessionId : string) (agentId : Z)
    (outcome : CallOutcomeOptions) (w : World) (s : CallSession)
    (q : CallQueue) :
  List.find (hasId sessionId) (callSession (db w)) = Some s ->
  cs_agentId s = agentId ->
  cs_callQueueId s <> "" ->
  List.find (hasQueueId (cs_callQueueId s)) (callQueue (db w)) = Some q ->
  exists out w' i,
    recordCallOutcome sessionId agentId outcome w = (inr out, w')
    /\ callQueue (db w) !! i = Some q
    /\ callQueue (db w')
       = <[i := setQueueStatus "completed" q]> (callQueue (db w)).
Proof.
  intros Hs Hagent Hne Hq.
  destruct (updateFirst_Some (hasQueueId (cs_callQueueId s))
              (setQueueStatus "completed") _ _ Hq) as (rows & Hupd & _).
  destruct (updateFirst_insert _ _ _ _ _ Hupd)
    as (i & x & Hi & Hfind & _ & Hrows).
  assert (x = q) as -> by congruence.
  unfold recordCallOutcome, transaction.
  rewrite bind_run. unfold callSession_findUnique. run. rewrite Hs.
  rewrite Hagent, Z.eqb_refl.
  cbn -[updateUserScoreAfterCall callEnded].
  rewrite updateUserScoreAfterCall_run.
  rewrite (string_truthy_ne _ Hne). unfold hasQueueId in Hupd.
  destruct (oo_callbackDateTime outcome) as [d|];
    [destruct (String.eqb (oo_outcomeType outcome) "callback_requested")|];
    destruct (callEnded (cs_status s));
    cbn; rewrite Hupd; cbn;
    eexists _, _, i; (split; [reflexivity|]); by cbn.
Qed.

(** X7.  Recording the outcome of a call that came from a queue entry marks
    exactly that entry [completed]; the other queue entries are not
    touched. *)
Theorem recordCallOutcome_completes_queue_entry (sessionId : string)
    (agentId : Z) (outcome : CallOutcomeOptions) (w : World)
    (s : CallSession) (q : CallQueue) :
  List.find (hasId sessionId) (callSession (db w)) = Some s ->
  cs_agentId s = agentId ->
  cs_callQueueId s <> "" ->
  List.find (hasQueueId (cs_callQueueId s)) (callQueue (db w)) = Some q ->
  exists out w' i,
    recordCallOutcome sessionId agentId outcome w = (inr out, w')
    /\ callQueue (db w) !! i = Some q
    /\ cq_id q = cs_callQueueId s
    /\ callQueue (db w')
       = <[i := setQueueStatus "completed" q]> (callQueue (db w))
    /\ callOutcome (db w') = (callOutcome (db w) ++ [out])%list.
Proof.
  intros Hs Hagent Hne Hq.
  destruct (recordCallOutcome_with_queue sessionId agentId outcome w s q
              Hs Hagent Hne Hq) as (out & w' & i & Hrun & Hi & Hrows).
  destruct (recordCallOutcome_success _ _ _ _ _ _ Hrun)
    as (_ & _ & _ & _ & _ & Houts & _).
  exists out, w', i. repeat split; try done.
  apply find_some in Hq as [_ Hq]. by apply String.eqb_eq in Hq.
Qed.

Lemma recordCallOutcome_completes_queue_entry_witness :
  exists out w' i,
    recordCallOutcome "s2" 1 (plainOutcome "contacted")
      (worldAt queueDb outcomeClock) = (inr out, w')
    /\ callQueue queueDb !! i = Some sampleQueue
    /\ cq_id sampleQueue = "q1"
    /\ callQueue (db w')
       = <[i := setQueueStatus "completed" sampleQueue]> (callQueue queueDb)
    /\ callOutcome (db w') = [out].
Proof.
  apply (recordCallOutcome_completes_queue_entry "s2" 1
           (plainOutcome "contacted") (worldAt queueDb outcomeClock)
           queuedSession sampleQueue);
    [reflexivity | reflexivity | discriminate | reflexivity].
Defined.



(** X9.  Recording the outcome of a call that has ended ([completed],
    [failed] or [no_answer]) releases the agent: every agent session of the
    recording agent that points to this call becomes [available], points to
    no call, counts one more completed call and adds the talk time of the
    session (0 when there is none); every other agent session stays as it
    is.  For a call that has not ended, no agent session changes: the agent
    stays on the call. *)
Theorem recordCallOutcome_agent_release (sessionId : string) (agentId : Z)
    (outcome : CallOutcomeOptions) (w w' : World) (out : CallOutcome)
    (s : CallSession) :
  recordCallOutcome sessionId agentId outcome w = (inr out, w') ->
  List.find (hasId sessionId) (callSession (db w)) = Some s ->
  (callEnded (cs_status s) = false ->
   agentSession (db w') = agentSession (db w))
  /\ (callEnded (cs_status s) = true ->
      forall (i : nat) (a : AgentSession),
        agentSession (db w) !! i = Some a ->
        exists a',
          agentSession (db w') !! i = Some a'
          /\ (as_agentId a = agentId ->
              as_currentCallSessionId a = Some sessionId ->
              as_status a' = "available"
              /\ as_currentCallSessionId a' = None
              /\ as_callsCompletedToday a' = as_callsCompletedToday a + 1
              /\ as_totalTalkTimeSeconds a'
                 = as_totalTalkTimeSeconds a
                   + default 0 (cs_talkTimeSeconds s))
          /\ (as_agentId a <> agentId
              \/ as_currentCallSessionId a <> Some sessionId ->
              a' = a)).
Proof.
  intros Hrun Hs.
  destruct (recordCallOutcome_success _ _ _ _ _ _ Hrun)
    as (s' & Hs' & _ & _ & _ & _ & _ & _ & Hagents & _).
  assert (s' = s) as -> by congruence.
  rewrite Hagents. split; intros Hended; rewrite Hended; [done|].
  intros i a Hi. rewrite updateMany_lookup, Hi. cbn. unfold onThisCall.
  destruct (Z.eqb_spec (as_agentId a) agentId) as [Hag|Hag];
    [destruct (decide (as_currentCallSessionId a = Some sessionId))
       as [Hcur|Hcur]|].
  - rewrite bool_decide_eq_true_2 by done. cbn.
    eexists. split; [reflexivity|]. split; [|intros [?|?]; done].
    intros _ _. cbn. repeat split.
    unfold jsOr, truthy, Z_truthy.
    destruct (cs_talkTimeSeconds s) as [t|]; cbn; [|done].
    destruct (Z.eqb_spec t 0); cbn; lia.
  - rewrite bool_decide_eq_false_2 by done. cbn.
    eexists. split; [reflexivity|]. split; [done|done].
  - cbn. eexists. split; [reflexivity|]. split; [done|done].
Qed.

Lemma recordCallOutcome_agent_release_witness :
  exists out w' a',
    recordCallOutcome "s2" 1 (plainOutcome "contacted")
      (worldAt queueDb outcomeClock) = (inr out, w')
    /\ agentSession (db w') !! 0%nat = Some a'
    /\ as_status a' = "available"
    /\ as_currentCallSessionId a' = None
    /\ as_callsCompletedToday a' = 3 + 1
    /\ as_totalTalkTimeSeconds a' = 600 + 125.
Proof.
  destruct (succeeds_run (recordCallOutcome "s2" 1 (plainOutcome "contacted"))
              (worldAt queueDb outcomeClock)) as (out & w' & Hrun);
    [vm_compute; reflexivity|].
  destruct (proj2 (recordCallOutcome_agent_release "s2" 1
                     (plainOutcome "contacted")
                     (worldAt queueDb outcomeClock) w' out queuedSession
                     Hrun eq_refl) eq_refl 0%nat agentOne eq_refl)
    as (a' & Hlookup & Hrelease & _).
  exists out, w', a'. split; [exact Hrun|]. split; [exact Hlookup|].
  exact (Hrelease eq_refl eq_refl).
Defined.

(** X10.  An outcome creates a callback exactly when its type is
    [callback_requested] and it carries a callback time: then one pending
    callback is appended, for the user of the session, at the time given,
    with the recording agent as preferred agent and the session as origin;
    its reason is the one given, or the stock reason when none or an empty
    one was given.  In every other case the callback table is not
    touched. *)
Theorem recordCallOutcome_callback (sessionId : string) (agentId : Z)
    (outcome : CallOutcomeOptions) (w w' : World) (out : CallOutcome)
    (s : CallSession) :
  recordCallOutcome sessionId agentId outcome w = (inr out, w') ->
  List.find (hasId sessionId) (callSession (db w)) = Some s ->
  (forall callbackDateTime : Z,
     oo_outcomeType outcome = "callback_requested" ->
     oo_callbackDateTime outcome = Some callbackDateTime ->
     exists cb,
       callback (db w') = (callback (db w) ++ [cb])%list
       /\ cb_userId cb = cs_userId s
       /\ cb_scheduledFor cb = callbackDateTime
       /\ cb_preferredAgentId cb = Some agentId
       /\ cb_originalCallSessionId cb = sessionId
       /\ cb_status cb = "pending"
       /\ cb_completedCallSessionId cb = None
       /\ (oo_callbackReason outcome = None
           \/ oo_callbackReason outcome = Some "" ->
           cb_callbackReason cb = Some "User requested callback")
       /\ (forall reason : string,
             oo_callbackReason outcome = Some reason ->
             reason <> "" ->
             cb_callbackReason cb = Some reason))
  /\ (oo_outcomeType outcome <> "callback_requested"
      \/ oo_callbackDateTime outcome = None ->
      callback (db w') = callback (db w)).
Proof.
  intros Hrun Hs.
  destruct (recordCallOutcome_success _ _ _ _ _ _ Hrun)
    as (s' & Hs' & _ & _ & _ & _ & _ & Hcb & _).
  assert (s' = s) as -> by congruence.
  rewrite Hcb. unfold callbacksOf. split.
  - intros d Htype Hdate. rewrite Hdate, Htype. cbn.
    eexists. split; [reflexivity|]. cbn. repeat split.
    + by intros [->| ->].
    + intros reason -> Hne. unfold jsOr, truthy, string_truthy.
      by destruct (String.eqb_spec reason "").
  - intros [Htype|Hdate].
    + destruct (oo_callbackDateTime outcome); [|by rewrite app_nil_r].
      destruct (String.eqb_spec (oo_outcomeType outcome) "callback_requested");
        [done|by rewrite app_nil_r].
    + rewrite Hdate. by rewrite app_nil_r.
Qed.

Lemma recordCallOutcome_callback_witness :
  exists out w' cb,
    recordCallOutcome "s1" 1
      (mkCallOutcomeOptions "callback_requested" None None None None None
         None (Some 7200000) (Some ""))
      (worldAt sampleDb outcomeClock) = (inr out, w')
    /\ callback (db w') = [cb]
    /\ cb_scheduledFor cb = 7200000
    /\ cb_callbackReason cb = Some "User requested callback".
Proof.
  destruct (succeeds_run
              (recordCallOutcome "s1" 1
                 (mkCallOutcomeOptions "callback_requested" None None None
                    None None None (Some 7200000) (Some "")))
              (worldAt sampleDb outcomeClock)) as (out & w' & Hrun);
    [vm_compute; reflexivity|].
  destruct (proj1 (recordCallOutcome_callback "s1" 1 _ _ w' out
                     sampleSession Hrun eq_refl) 7200000 eq_refl eq_refl)
    as (cb & Hrows & _ & Hat & _ & _ & _ & _ & Hstock & _).
  exists out, w', cb. split; [exact Hrun|]. split; [exact Hrows|].
  split; [exact Hat|]. apply Hstock. by right.
Defined.

(** ** More on the Twilio webhook *)


(** A webhook for a known call rewrites, in place, the row that carries the
    id of the matched session. *)
Lemma handleTwilioWebhook_matched_row (wd : TwilioWebhookData) (w : World)
    (s x : CallSession) :
  List.find (hasSid (wh_CallSid wd)) (callSession (db w)) = Some s ->
  List.find (hasId (cs_id s)) (callSession (db w)) = Some x ->
  exists w' i u durationSeconds,
    handleTwilioWebhook wd w = (inr tt, w')
    /\ callSession (db w) !! i = Some x
    /\ db w'
       = setCallSession
           (<[i := statusData u durationSeconds x]> (callSession (db w)))
           (db w).
Proof.
  intros Hs Hx. unfold handleTwilioWebhook.
  rewrite bind_run. unfold callSession_findFirst. run. rewrite Hs.
  destruct (String.eqb_spec (wh_CallStatus wd) "in-progress") as [Hst|Hst];
    [rewrite Hst, endsCall_in_progress;
     destruct (cs_connectedAt s) as [t|] eqn:Hc
    |destruct (endsCall (wh_CallStatus wd)) eqn:Hend];
    cbn -[updateCallStatus];
    match goal with
    | |- context [updateCallStatus ?i ?u ?W] =>
        destruct (updateCallStatus_row i u W x Hx)
          as (w' & j & Hrun & Hj & Hdb);
        rewrite Hrun;
        exists (after (log LInfo "Twilio webhook processed") w'), j, u
    end;
    cbn in *; eexists; (split; [reflexivity|]);
    (split; [exact Hj|]); by rewrite Hdb.
Qed.





(** X13.  The first in-progress event of a call marks it [connected] and
    stamps [connectedAt] with the handler's reading of the clock; the call
    is not ended by it. *)
Theorem handleTwilioWebhook_first_in_progress (wd : TwilioWebhookData)
    (w : World) (s : CallSession) :
  List.find (hasSid (wh_CallSid wd)) (callSession (db w)) = Some s ->
  List.find (hasId (cs_id s)) (callSession (db w)) = Some s ->
  wh_CallStatus wd = "in-progress" ->
  cs_connectedAt s = None ->
  exists w' s',
    handleTwilioWebhook wd w = (inr tt, w')
    /\ List.find (hasId (cs_id s)) (callSession (db w')) = Some s'
    /\ cs_status s' = "connected"
    /\ cs_connectedAt s' = Some (clock w (reads w))
    /\ cs_endedAt s' = cs_endedAt s
    /\ cs_durationSeconds s' = cs_durationSeconds s
    /\ cs_talkTimeSeconds s' = cs_talkTimeSeconds s.
Proof.
  intros Hs Hx Hst Hnone.
  destruct (handleTwilioWebhook_matched wd w s s Hs Hx)
    as (w' & u & d & Hrun & Hfind & _ & Hstatus & _ & _ & _ & Hstamp & _
        & Hopen).
  destruct (Hopen ltac:(by rewrite Hst)) as [Hended ->].
  exists w', (statusData u None s). split; [exact Hrun|].
  split; [exact Hfind|]. cbn.
  rewrite Hstatus, Hended, (Hstamp Hst Hnone), Hst. by cbn.
Qed.

Lemma handleTwilioWebhook_first_in_progress_witness :
  exists w' s',
    handleTwilioWebhook (webhook "CA1" "in-progress")
      (worldAt sampleDb webhookClock) = (inr tt, w')
    /\ List.find (hasId "s1") (callSession (db w')) = Some s'
    /\ cs_status s' = "connected"
    /\ cs_connectedAt s' = Some 5000.
Proof.
  destruct (handleTwilioWebhook_first_in_progress
              (webhook "CA1" "in-progress") (worldAt sampleDb webhookClock)
              sampleSession eq_refl eq_refl eq_refl eq_refl)
    as (w' & s' & Hrun & Hfind & Hstatus & Hconn & _).
  by exists w', s'.
Defined.

(** X14.  A webhook writes at most one row: either the store is left as it
    is, or one session row is rewritten in place, keeping its id, user,
    agent, queue entry and start time, and no other row or table
    changes. *)
Theorem handleTwilioWebhook_one_row (wd : TwilioWebhookData) (w : World) :
  db (after (handleTwilioWebhook wd) w) = db w
  \/ exists i x x',
       callSession (db w) !! i = Some x
       /\ db (after (handleTwilioWebhook wd) w)
          = setCallSession (<[i := x']> (callSession (db w))) (db w)
       /\ cs_id x' = cs_id x
       /\ cs_userId x' = cs_userId x
       /\ cs_agentId x' = cs_agentId x
       /\ cs_callQueueId x' = cs_callQueueId x
       /\ cs_startedAt x' = cs_startedAt x.
Proof.
  destruct (List.find (hasSid (wh_CallSid wd)) (callSession (db w)))
    as [s|] eqn:Hs.
  - right. destruct (matched_has_row _ _ _ Hs) as [x Hx].
    destruct (handleTwilioWebhook_matched_row wd w s x Hs Hx)
      as (w' & i & u & d & Hrun & Hi & Hdb).
    exists i, x, (statusData u d x). unfold after. rewrite Hrun.
    by repeat split.
  - left. unfold after, handleTwilioWebhook.
    rewrite bind_run. unfold callSession_findFirst. run. by rewrite Hs.
Qed.

(** ** More on the analytics *)








(** ** Pages of a sorted query *)

#[global] Instance descBy_total {A} (key : A -> Z) : Total (descBy key).
Proof. intros x y. unfold descBy. lia. Qed.

#[global] Instance descBy_trans {A} (key : A -> Z) : Transitive (descBy key).
Proof. intros x y z. unfold descBy. lia. Qed.

#[global] Instance ascBy_total {A} (key : A -> Z) : Total (ascBy key).
Proof. intros x y. unfold ascBy. lia. Qed.

#[global] Instance ascBy_trans {A} (key : A -> Z) : Transitive (ascBy key).
Proof. intros x y z. unfold ascBy. lia. Qed.

Lemma StronglySorted_sublist {A} (R : relation A) (l l' : list A) :
  l' `sublist_of` l -> StronglySorted R l -> StronglySorted R l'.
Proof.
  induction 1 as [|x l1 l2 Hsub IH|x l1 l2 Hsub IH]; intros Hsorted.
  - constructor.
  - apply StronglySorted_inv in Hsorted as [Hrest Hall].
    constructor; [auto|]. eapply Forall_forall. intros y Hy.
    eapply Forall_forall in Hall; [exact Hall|].
    by eapply elem_of_sublist.
  - apply StronglySorted_inv in Hsorted as [Hrest _]. auto.
Qed.

Lemma paginate_sublist {A} (page limit : Z) (rows : list A) :
  paginate page limit rows `sublist_of` rows.
Proof.
  unfold paginate. etrans; [apply sublist_take|apply sublist_drop].
Qed.

Lemma paginate_length {A} (page limit : Z) (rows : list A) :
  (length (paginate page limit rows) <= Z.to_nat limit)%nat.
Proof. unfold paginate. rewrite length_take. lia. Qed.





(** ** The call history *)

Lemma truthy_Z_filter (o : option Z) (x : Z) :
  (if isTruthy o then bool_decide (Some x = o) else true) = true
  <-> (forall a, o = Some a -> a <> 0 -> x = a).
Proof.
  destruct o as [a|]; cbn; [|by split].
  unfold truthy, Z_truthy. destruct (Z.eqb_spec a 0) as [->|Hne]; cbn.
  - split; [by intros _ ? [= <-]|done].
  - rewrite bool_decide_eq_true. split.
    + by intros [= ->] ? [= <-].
    + intros H. f_equal. by apply H.
Qed.

Lemma truthy_string_filter (o : option string) (x : string) :
  (if isTruthy o then bool_decide (Some x = o) else true) = true
  <-> (forall a, o = Some a -> a <> "" -> x = a).
Proof.
  destruct o as [a|]; cbn; [|by split].
  unfold truthy, string_truthy. destruct (String.eqb_spec a "") as [->|Hne];
    cbn.
  - split; [by intros _ ? [= <-]|done].
  - rewrite bool_decide_eq_true. split.
    + by intros [= ->] ? [= <-].
    + intros H. f_equal. by apply H.
Qed.

Lemma from_filter (o : option Z) (x : Z) :
  match o with Some t => t <=? x | None => true end = true
  <-> (forall t, o = Some t -> t <= x).
Proof.
  destruct o as [t|]; [|by split]. rewrite Z.leb_le. split.
  - by intros ? ? [= <-].
  - intros H. by apply H.
Qed.

Lemma to_filter (o : option Z) (x : Z) :
  match o with Some t => x <=? t | None => true end = true
  <-> (forall t, o = Some t -> x <= t).
Proof.
  destruct o as [t|]; [|by split]. rewrite Z.leb_le. split.
  - by intros ? ? [= <-].
  - intros H. by apply H.
Qed.








Lemma historyWhere_atPage (page : Z) (options : GetCallHistoryOptions) :
  historyWhere (atPage page options) = historyWhere options.
Proof. reflexivity. Qed.



(** ** The callback listing *)

Lemma callbacksWhere_match (options : GetCallbacksOptions) (c : Callback) :
  callbacksWhere options c = true <-> CallbackMatch options c.
Proof.
  unfold callbacksWhere, CallbackMatch.
  rewrite !andb_true_iff, truthy_string_filter, from_filter, to_filter.
  assert (Hagent :
    (if isTruthy (bo_agentId options)
     then bool_decide (cb_preferredAgentId c = bo_agentId options)
     else true) = true
    <-> (forall a, bo_agentId options = Some a -> a <> 0 ->
         cb_preferredAgentId c = Some a)).
  { destruct (bo_agentId options) as [a|]; cbn; [|by split].
    unfold truthy, Z_truthy. destruct (Z.eqb_spec a 0) as [->|Hne]; cbn.
    - split; [by intros _ ? [= <-]|done].
    - rewrite bool_decide_eq_true. split.
      + by intros -> ? [= <-].
      + intros H. by apply H. }
  rewrite Hagent. tauto.
Qed.

Lemma getCallbacks_run (agents : list Agent) (options : GetCallbacksOptions)
    (w : World) :
  let page := default 1 (bo_page options) in
  let limit := default 20 (bo_limit options) in
  let matching := List.filter (callbacksWhere options) (callback (db w)) in
  exists r,
    getCallbacks agents options w = (inr r, w)
    /\ map bc_callback (br_callbacks r)
       = paginate page limit (merge_sort (ascBy cb_scheduledFor) matching)
    /\ br_meta r
       = mkPageMeta page limit (Z.of_nat (length matching))
           (Math_ceil (jsDiv (ofZ (Z.of_nat (length matching))) (ofZ limit))).
Proof.
  intros page limit matching. unfold getCallbacks. run.
  eexists. split; [reflexivity|]. cbn [br_callbacks br_meta].
  split; [|reflexivity]. rewrite map_map. cbn. apply map_id.
Qed.

Lemma getCallbacks_listed (agents : list Agent)
    (options : GetCallbacksOptions) (w : World) (r : CallbacksResult)
    (c : CallbackWithContext) :
  getCallbacks agents options w = (inr r, w) ->
  c ∈ br_callbacks r ->
  bc_callback c ∈ callback (db w) /\ CallbackMatch options (bc_callback c).
Proof.
  intros Hrun Hc.
  destruct (getCallbacks_run agents options w) as (r' & Hrun' & Hrows & _).
  assert (r' = r) as -> by congruence.
  assert (Hin : bc_callback c
                ∈ List.filter (callbacksWhere options) (callback (db w))).
  { rewrite <- (merge_sort_Permutation (ascBy cb_scheduledFor)).
    eapply elem_of_sublist; [|apply paginate_sublist].
    rewrite <- Hrows. by apply list_elem_of_fmap_2. }
  apply list_elem_of_In, filter_In in Hin as [Hin Hwhere].
  split; [by apply list_elem_of_In|by apply callbacksWhere_match].
Qed.

(** X20.  A page of the callback listing, for a page number from 1 on and a
    limit that is not negative: it holds at most [limit] callbacks, each a
    stored callback that meets the filters given (the agent filter is on
    the preferred agent), in ascending order of [scheduledFor]; [total] is
    the number of callbacks that meet the filters. *)
Theorem getCallbacks_page (agents : list Agent)
    (options : GetCallbacksOptions) (w : World) :
  1 <= default 1 (bo_page options) ->
  0 <= default 20 (bo_limit options) ->
  exists r,
    getCallbacks agents options w = (inr r, w)
    /\ (length (br_callbacks r)
        <= Z.to_nat (default 20%Z (bo_limit options)))%nat
    /\ StronglySorted (ascBy cb_scheduledFor)
         (map bc_callback (br_callbacks r))
    /\ (forall c,
          c ∈ br_callbacks r ->
          bc_callback c ∈ callback (db w)
          /\ CallbackMatch options (bc_callback c))
    /\ pm_total (br_meta r)
       = Z.of_nat (length (List.filter (callbacksWhere options)
                             (callback (db w)))).
Proof.
  intros _ _.
  destruct (getCallbacks_run agents options w) as (r & Hrun & Hrows & Hmeta).
  exists r. split; [exact Hrun|]. split; [|split; [|split]].
  - rewrite <- (length_map bc_callback), Hrows. apply paginate_length.
  - rewrite Hrows. eapply StronglySorted_sublist; [apply paginate_sublist|].
    apply StronglySorted_merge_sort; apply _.
  - intros c Hc. by apply (getCallbacks_listed agents options w r c).
  - by rewrite Hmeta.
Qed.

Lemma getCallbacks_page_witness :
  exists r,
    getCallbacks sampleAgents agentOneCallbacks
      (worldAt callbackDb outcomeClock)
    = (inr r, worldAt callbackDb outcomeClock)
    /\ StronglySorted (ascBy cb_scheduledFor)
         (map bc_callback (br_callbacks r))
    /\ pm_total (br_meta r) = 2.
Proof.
  destruct (getCallbacks_page sampleAgents agentOneCallbacks
              (worldAt callbackDb outcomeClock))
    as (r & Hrun & _ & Hsorted & _ & Htotal); [simpl; lia | simpl; lia |].
  exists r. by repeat split.
Defined.

(** ** The filters of the analytics *)





(** ** The procedures *)

Lemma tryCatch_ok {A} (c : M A) (e : TRPCError) (w w' : World) (a : A) :
  tryCatch c e w = (inr a, w') <-> c w = (inr a, w').
Proof.
  unfold tryCatch. destruct (c w) as [[x|a'] w'']; split; congruence.
Qed.

Lemma tryCatch_error {A} (c : M A) (e e' : TRPCError) (w w' : World) :
  tryCatch c e w = (inl e', w') -> e' = e /\ exists x, c w = (inl x, w').
Proof.
  unfold tryCatch. destruct (c w) as [[x|a'] w'']; intros [= <- <-]; eauto.
Qed.

(** A transaction that fails leaves the store as it found it. *)
Lemma transaction_failure {A} (body : M A) (w w' : World) (e : exn) :
  transaction body w = (inl e, w') -> db w' = db w.
Proof.
  unfold transaction. destruct (body w) as [[x|a] w'']; [|done].
  by intros [= <- <-].
Qed.

Lemma recordCallOutcome_refuses (sessionId : string) (agentId : Z)
    (outcome : CallOutcomeOptions) (w : World) :
  (forall s,
     List.find (hasId sessionId) (callSession (db w)) = Some s ->
     cs_agentId s <> agentId) ->
  exists e, recordCallOutcome sessionId agentId outcome w = (inl e, w).
Proof.
  intros Hforeign. unfold recordCallOutcome.
  destruct (List.find (hasId sessionId) (callSession (db w)))
    as [s|] eqn:Hs.
  - eexists. erewrite transaction_rollback; [by rewrite withDb_id|].
    run. rewrite Hs.
    by destruct (Z.eqb_spec (cs_agentId s) agentId) as [Heq|];
      [destruct (Hforeign s eq_refl Heq)|].
  - eexists. erewrite transaction_rollback; [by rewrite withDb_id|].
    run. by rewrite Hs.
Qed.

(** X21.  The procedure [recordOutcome] records for the caller only: when
    the session named does not exist or is assigned to another agent than
    the caller, it answers with the error [BAD_REQUEST], the same in both
    cases, and the world is as before. *)
Theorem proc_recordOutcome_refuses (ctx : Ctx) (input : RecordOutcomeInput)
    (w : World) :
  (forall s,
     List.find (hasId (ri_sessionId input)) (callSession (db w)) = Some s ->
     cs_agentId s <> ctx_agentId ctx) ->
  proc_recordOutcome ctx input w
  = (inl (mkTRPCError "BAD_REQUEST" "Failed to record call outcome"), w).
Proof.
  intros Hforeign. unfold proc_recordOutcome, tryCatch.
  destruct (recordCallOutcome_refuses (ri_sessionId input) (ctx_agentId ctx)
              (ri_outcomeData input) w Hforeign) as [e ->].
  reflexivity.
Qed.

Lemma proc_recordOutcome_refuses_witness :
  proc_recordOutcome supervisorCtx
    (mkRecordOutcomeInput "s1" (plainOutcome "contacted"))
    (worldAt sampleDb outcomeClock)
  = (inl (mkTRPCError "BAD_REQUEST" "Failed to record call outcome"),
     worldAt sampleDb outcomeClock)
  /\ proc_recordOutcome agentCtx
       (mkRecordOutcomeInput "s9" (plainOutcome "contacted"))
       (worldAt sampleDb outcomeClock)
     = (inl (mkTRPCError "BAD_REQUEST" "Failed to record call outcome"),
        worldAt sampleDb outcomeClock).
Proof.
  split.
  - apply (proc_recordOutcome_refuses supervisorCtx
             (mkRecordOutcomeInput "s1" (plainOutcome "contacted"))
             (worldAt sampleDb outcomeClock)).
    intros s [= <-]. simpl. lia.
  - apply (proc_recordOutcome_refuses agentCtx
             (mkRecordOutcomeInput "s9" (plainOutcome "contacted"))
             (worldAt sampleDb outcomeClock)).
    intros s Hs. discriminate Hs.
Defined.

(** X22.  The procedure [initiateCall] places the call for the caller: a
    call it creates is assigned to the calling agent, for the user and in
    the direction of the input, and is in the store; when it fails, the
    error is [BAD_REQUEST] and the store is as before. *)
Theorem proc_initiateCall_for_caller (ctx : Ctx) (input : InitiateCallInput)
    (w w' : World) :
  (forall s,
     proc_initiateCall ctx input w = (inr s, w') ->
     cs_agentId s = ctx_agentId ctx
     /\ cs_userId s = ii_userId input
     /\ cs_direction s = ii_direction input
     /\ cs_status s = "initiated"
     /\ s ∈ callSession (db w'))
  /\ (forall e,
        proc_initiateCall ctx input w = (inl e, w') ->
        e = mkTRPCError "BAD_REQUEST" "Failed to initiate call"
        /\ db w' = db w).
Proof.
  unfold proc_initiateCall. split.
  - intros s Hrun. apply tryCatch_ok in Hrun.
    destruct (initiateCall_success _ _ _ _ Hrun) as (-> & Hrows & _).
    rewrite Hrows. cbn. repeat split. apply list_elem_of_In, in_app_iff.
    right. by left.
  - intros e Hrun. apply tryCatch_error in Hrun as [-> [x Hrun]].
    split; [done|]. by apply transaction_failure in Hrun.
Qed.

Lemma proc_initiateCall_for_caller_witness :
  exists s w',
    proc_initiateCall supervisorCtx
      (mkInitiateCallInput 8 (Some "q1") None "outbound")
      (worldAt queueDb outcomeClock) = (inr s, w')
    /\ cs_agentId s = 2
    /\ cs_userId s = 8.
Proof.
  destruct (succeeds_run
              (initiateCall (mkCallSessionOptions 8 2 (Some "q1")
                               (Some "outbound") None))
              (worldAt queueDb outcomeClock)) as (s & w' & Hrun);
    [vm_compute; reflexivity|].
  assert (Hproc : proc_initiateCall supervisorCtx
                    (mkInitiateCallInput 8 (Some "q1") None "outbound")
                    (worldAt queueDb outcomeClock) = (inr s, w')).
  { unfold proc_initiateCall. apply tryCatch_ok. exact Hrun. }
  destruct (proj1 (proc_initiateCall_for_caller supervisorCtx
                     (mkInitiateCallInput 8 (Some "q1") None "outbound")
                     (worldAt queueDb outcomeClock) w') s Hproc)
    as (Hagent & Huser & _).
  by exists s, w'.
Defined.







(** X26.  The date filters of [getCallHistoryTable]: the conditions on
    [startedAt] are spread into one key, so an end date replaces the
    condition of a start date.  With an end date, a session matches when it
    started at or before it, whatever the start date says; the start date
    bounds the matches only when no end date is given.  The total of the
    table therefore does not depend on the start date once an end date is
    given. *)
Theorem historyTable_date_filters (filters : GetCallHistoryOptions) :
  (forall (s : CallSession) (endDate : Z),
     ho_endDate filters = Some endDate ->
     historyTableWhere filters s = true
     <-> (forall a, ho_agentId filters = Some a -> a <> 0 -> cs_agentId s = a)
         /\ (forall u, ho_userId filters = Some u -> u <> 0 -> cs_userId s = u)
         /\ cs_startedAt s <= endDate
         /\ (forall st, ho_status filters = Some st -> st <> "" ->
             cs_status s = st))
  /\ (forall s : CallSession,
        ho_endDate filters = None ->
        historyTableWhere filters s = true
        <-> (forall a, ho_agentId filters = Some a -> a <> 0 ->
             cs_agentId s = a)
            /\ (forall u, ho_userId filters = Some u -> u <> 0 ->
                cs_userId s = u)
            /\ (forall t, ho_startDate filters = Some t -> t <= cs_startedAt s)
            /\ (forall st, ho_status filters = Some st -> st <> "" ->
                cs_status s = st))
  /\ (forall (d : Db) (endDate : Z) (startDate : option Z),
        ho_endDate filters = Some endDate ->
        historyTableTotal (withStartDate startDate filters) d
        = historyTableTotal filters d).
Proof.
  split; [|split].
  - intros s endDate Hend. unfold historyTableWhere, historyTableStartedAt.
    rewrite Hend. cbn.
    rewrite !andb_true_iff, !truthy_Z_filter, truthy_string_filter, Z.leb_le.
    tauto.
  - intros s Hend. unfold historyTableWhere, historyTableStartedAt.
    rewrite Hend.
    rewrite !andb_true_iff, !truthy_Z_filter, truthy_string_filter.
    destruct (ho_startDate filters) as [t|]; cbn.
    + rewrite andb_true_r, Z.leb_le. split.
      * intros (((Ha & Hu) & Ht) & Hst). repeat split; try done.
        by intros ? [= <-].
      * intros (Ha & Hu & Ht & Hst). repeat split; try done. by apply Ht.
    + split; [intros (((Ha & Hu) & _) & Hst)|intros (Ha & Hu & _ & Hst)];
        by repeat split.
  - intros d endDate startDate Hend.
    unfold historyTableTotal, historyTableWhere, historyTableStartedAt.
    cbn. by rewrite Hend.
Qed.

Lemma historyTable_date_filters_witness :
  historyTableWhere dateRangeFilters firstCall = true
  /\ cs_startedAt firstCall < 2500
  /\ historyTableTotal (withStartDate None dateRangeFilters) analyticsDb
     = historyTableTotal dateRangeFilters analyticsDb.
Proof.
  split; [|split; [simpl; lia|]].
  - apply (proj2 (proj1 (historyTable_date_filters dateRangeFilters)
                    firstCall 5000 eq_refl)).
    repeat split; try discriminate; simpl; lia.
  - apply (proj2 (proj2 (historyTable_date_filters dateRangeFilters))
             analyticsDb 5000 None).
    reflexivity.
Defined.

(** ** Display helpers *)

Lemma append_cons (c : Ascii.ascii) (s t : string) :
  String.append (String c s) t = String c (String.append s t).
Proof. reflexivity. Qed.

Lemma splitColon_cons (c : Ascii.ascii) (s : string) :
  Ascii.eqb c ":"%char = false ->
  splitColon (String c s)
  = match splitColon s with
    | Some (a, b) => Some (String c a, b)
    | None => None
    end.
Proof. intros Hc. cbn [splitColon]. by rewrite Hc. Qed.

Lemma splitColon_digits (d : Decimal.uint) (r : string) :
  splitColon (String.append (NilEmpty.string_of_uint d) (String ":"%char r))
  = Some (NilEmpty.string_of_uint d, r).
Proof.
  induction d; cbn [NilEmpty.string_of_uint]; [reflexivity|..];
    by rewrite append_cons, splitColon_cons, IHd.
Qed.

Lemma numberToString_digits (m : Z) :
  0 <= m ->
  exists d, numberToString m = NilEmpty.string_of_uint d
            /\ NilZero.int_of_string (numberToString m) = Some (Z.to_int m).
Proof.
  intros Hm. unfold numberToString.
  destruct m as [|p|p]; [| |lia].
  - exists (Decimal.D0 Decimal.Nil). split; reflexivity.
  - exists (Pos.to_uint p). split.
    + cbn. unfold NilZero.string_of_uint.
      pose proof (DecimalPos.Unsigned.to_uint_nonnil p).
      by destruct (Pos.to_uint p).
    + apply NilZero.isi; cbn; intros [= H];
        by apply (DecimalPos.Unsigned.to_uint_nonnil p).
Qed.

Lemma seconds_read_back (r : Z) :
  0 <= r < 60 ->
  exists d,
    NilZero.int_of_string (padStart 2 "0"%char (numberToString r)) = Some d
    /\ Z.of_int d = r.
Proof.
  intros Hr.
  assert (Hall : forallb
            (fun k => match NilZero.int_of_string
                              (padStart 2 "0"%char (numberToString (Z.of_nat k)))
                      with
                      | Some d => Z.eqb (Z.of_int d) (Z.of_nat k)
                      | None => false
                      end) (seq 0 60) = true) by (vm_compute; reflexivity).
  rewrite forallb_forall in Hall.
  specialize (Hall (Z.to_nat r)). rewrite Z2Nat.id in Hall by lia.
  destruct (NilZero.int_of_string _) as [d|].
  - exists d. split; [done|]. apply Z.eqb_eq, Hall, in_seq. lia.
  - exfalso. by eapply diff_false_true, Hall, in_seq; lia.
Qed.

Lemma parseDuration_modal (n : Z) :
  0 <= n -> parseDuration (CallOutcomeModal.formatDuration n) = Some n.
Proof.
  intros Hn. unfold CallOutcomeModal.formatDuration. cbv zeta.
  assert (Hm : 0 <= n / 60) by (apply Z.div_pos; lia).
  destruct (numberToString_digits _ Hm) as (d & Hd & Hparse).
  assert (Hr : 0 <= Z.rem n 60 < 60).
  { rewrite Z.rem_mod_nonneg by lia. apply Z.mod_pos_bound. lia. }
  destruct (seconds_read_back _ Hr) as (ds & Hs & Hval).
  unfold parseDuration. rewrite Hd at 1.
  change (String.append ":" ?t) with (String ":"%char t).
  rewrite splitColon_digits. cbv beta iota.
  rewrite <- Hd, Hparse, Hs, Hval, DecimalZ.of_to.
  f_equal. rewrite Z.rem_mod_nonneg by lia. symmetry. apply Z.div_mod. lia.
Qed.

Lemma formatDuration_positive (n : Z) :
  0 < n -> formatDuration (Some n) = CallOutcomeModal.formatDuration n.
Proof.
  intros Hn. unfold formatDuration.
  replace (isTruthy (Some n)) with true; [reflexivity|].
  unfold isTruthy, truthy. cbn. destruct n; try lia; reflexivity.
Qed.

(** X27. The duration shown by the call history table and by the outcome
    modal reads back as the number of seconds it was made from: the modal's
    text for every duration from 0 on, the table's for every positive one,
    where the two texts are the same.  So two different durations are never
    shown alike.  The table shows [N/A] for a missing duration and also for
    a duration of 0 seconds, and for no positive one. *)
Theorem formatDuration_reads_back :
  (forall n, 0 <= n ->
     parseDuration (CallOutcomeModal.formatDuration n) = Some n)
  /\ (forall n, 0 < n ->
        formatDuration (Some n) = CallOutcomeModal.formatDuration n
        /\ parseDuration (formatDuration (Some n)) = Some n
        /\ formatDuration (Some n) <> "N/A")
  /\ (forall a b, 0 < a -> 0 < b ->
        formatDuration (Some a) = formatDuration (Some b) -> a = b)
  /\ formatDuration None = "N/A"
  /\ formatDuration (Some 0) = "N/A".
Proof.
  split; [exact parseDuration_modal|].
  split; [|split; [|split; reflexivity]].
  - intros n Hn. rewrite formatDuration_positive by done.
    split; [done|]. split; [apply parseDuration_modal; lia|].
    intros Hna. pose proof (parseDuration_modal n ltac:(lia)) as Hp.
    rewrite Hna in Hp. discriminate Hp.
  - intros a b Ha Hb Heq.
    rewrite !formatDuration_positive in Heq by done.
    pose proof (parseDuration_modal a ltac:(lia)) as Hpa.
    pose proof (parseDuration_modal b ltac:(lia)) as Hpb.
    rewrite Heq in Hpa. congruence.
Qed.

Lemma formatDuration_reads_back_witness :
  parseDuration (CallOutcomeModal.formatDuration 0) = Some 0
  /\ formatDuration (Some 125) = "2:05"
  /\ parseDuration (formatDuration (Some 125)) = Some 125.
Proof.
  split; [|split].
  - apply (proj1 formatDuration_reads_back 0). lia.
  - reflexivity.
  - apply (proj1 (proj2 formatDuration_reads_back) 125). lia.
Defined.

Lemma toUpperCase_idem (c : Ascii.ascii) :
  toUpperCase (toUpperCase c) = toUpperCase c.
Proof. destruct c as [[] [] [] [] [] [] [] []]; reflexivity. Qed.

Lemma isWordChar_toUpperCase (c : Ascii.ascii) :
  isWordChar (toUpperCase c) = isWordChar c.
Proof. destruct c as [[] [] [] [] [] [] [] []]; reflexivity. Qed.

Lemma toUpperCase_underscore (c : Ascii.ascii) :
  c <> "_"%char -> toUpperCase c <> "_"%char.
Proof.
  destruct c as [[] [] [] [] [] [] [] []]; intros Hc; vm_compute;
    first [discriminate | done].
Qed.

Lemma replaceUnderscores_length (s : string) :
  String.length (replaceUnderscores s) = String.length s.
Proof. induction s as [|c s IH]; [done|]. cbn. by rewrite IH. Qed.

Lemma capitalizeWords_length (w : bool) (s : string) :
  String.length (capitalizeWords w s) = String.length s.
Proof.
  revert w. induction s as [|c s IH]; intros w; [done|]. cbn. by rewrite IH.
Qed.

Lemma replaceUnderscores_noUnderscore (s : string) :
  noUnderscore (replaceUnderscores s).
Proof.
  induction s as [|c s IH]; [constructor|].
  cbn [replaceUnderscores]. constructor; [|exact IH].
  destruct (Ascii.eqb_spec c "_"%char); [discriminate|done].
Qed.

Lemma replaceUnderscores_id (s : string) :
  noUnderscore s -> replaceUnderscores s = s.
Proof.
  induction s as [|c s IH]; [done|]. intros Hs.
  apply Forall_cons in Hs as [Hc Hs]. cbn [replaceUnderscores].
  rewrite IH by done. by destruct (Ascii.eqb_spec c "_"%char).
Qed.

Lemma capitalizeWords_noUnderscore (w : bool) (s : string) :
  noUnderscore s -> noUnderscore (capitalizeWords w s).
Proof.
  revert w. induction s as [|c s IH]; intros w Hs; [constructor|].
  apply Forall_cons in Hs as [Hc Hs]. cbn [capitalizeWords].
  constructor; [|by apply IH].
  destruct (isWordChar c && negb w); [by apply toUpperCase_underscore|done].
Qed.

Lemma capitalizeWords_idem (w : bool) (s : string) :
  capitalizeWords w (capitalizeWords w s) = capitalizeWords w s.
Proof.
  revert w. induction s as [|c s IH]; intros w; [done|].
  cbn [capitalizeWords].
  destruct (isWordChar c && negb w) eqn:Hcap.
  - rewrite isWordChar_toUpperCase, Hcap, toUpperCase_idem. by rewrite IH.
  - rewrite Hcap. by rewrite IH.
Qed.

Lemma display_char_injective (w : bool) (c1 c2 : Ascii.ascii) :
  In c1 outcomeAlphabet -> In c2 outcomeAlphabet ->
  (let r (c : Ascii.ascii) := if Ascii.eqb c "_"%char then " "%char else c in
   (if isWordChar (r c1) && negb w then toUpperCase (r c1) else r c1)
   = (if isWordChar (r c2) && negb w then toUpperCase (r c2) else r c2)) ->
  c1 = c2.
Proof.
  set (back (c : Ascii.ascii) :=
         let n := Ascii.nat_of_ascii c in
         if ((65 <=? n) && (n <=? 90))%nat then Ascii.ascii_of_nat (n + 32)
         else if Ascii.eqb c " "%char then "_"%char else c).
  assert (Hback : forall c, In c outcomeAlphabet ->
            let r := if Ascii.eqb c "_"%char then " "%char else c in
            back (if isWordChar r && negb w then toUpperCase r else r) = c).
  { intros c Hc. cbn in Hc.
    destruct w;
      repeat (destruct Hc as [<-|Hc]; [vm_compute; reflexivity|]); done. }
  intros H1 H2 Heq. cbv zeta in Heq.
  rewrite <- (Hback c1 H1), <- (Hback c2 H2). cbv zeta. by rewrite Heq.
Qed.

Lemma display_injective (w : bool) (a b : string) :
  isOutcomeCode a = true -> isOutcomeCode b = true ->
  capitalizeWords w (replaceUnderscores a)
  = capitalizeWords w (replaceUnderscores b) ->
  a = b.
Proof.
  unfold isOutcomeCode.
  revert w b. induction a as [|c1 a IH]; intros w [|c2 b] Ha Hb Heq;
    try done.
  cbn [list_ascii_of_string forallb] in Ha, Hb.
  apply andb_true_iff in Ha as [Hc1 Ha]. apply andb_true_iff in Hb as [Hc2 Hb].
  apply existsb_exists in Hc1 as (x1 & Hin1 & ->%Ascii.eqb_eq).
  apply existsb_exists in Hc2 as (x2 & Hin2 & ->%Ascii.eqb_eq).
  cbn [replaceUnderscores capitalizeWords] in Heq.
  injection Heq as Hhead Htail.
  pose proof (display_char_injective w x1 x2 Hin1 Hin2 Hhead) as <-.
  f_equal. by eapply IH.
Qed.

(** X28. The label the call history table shows for an outcome,
    [getOutcomeDisplay]: it is as long as the outcome's code and holds no
    underscore; making a label of a label changes nothing; and two different
    codes written in lower-case letters, digits and underscores never get
    the same label. *)
Theorem getOutcomeDisplay_label :
  (forall outcome,
     String.length (getOutcomeDisplay outcome) = String.length outcome
     /\ Forall (fun c => c <> "_"%char)
          (list_ascii_of_string (getOutcomeDisplay outcome))
     /\ getOutcomeDisplay (getOutcomeDisplay outcome)
        = getOutcomeDisplay outcome)
  /\ (forall a b,
        isOutcomeCode a = true -> isOutcomeCode b = true ->
        getOutcomeDisplay a = getOutcomeDisplay b -> a = b).
Proof.
  split.
  - intros outcome. unfold getOutcomeDisplay. split; [|split].
    + by rewrite capitalizeWords_length, replaceUnderscores_length.
    + apply capitalizeWords_noUnderscore, replaceUnderscores_noUnderscore.
    + rewrite (replaceUnderscores_id (capitalizeWords _ _)).
      * apply capitalizeWords_idem.
      * apply capitalizeWords_noUnderscore, replaceUnderscores_noUnderscore.
  - intros a b Ha Hb. apply display_injective; assumption.
Qed.

Lemma getOutcomeDisplay_label_witness :
  getOutcomeDisplay "no_answer" = "No Answer"
  /\ String.length (getOutcomeDisplay "no_answer") = 9%nat
  /\ "no_answer" = "no_answer".
Proof.
  split; [reflexivity|]. split.
  - apply (proj1 getOutcomeDisplay_label "no_answer").
  - apply (proj2 getOutcomeDisplay_label "no_answer" "no_answer").
    + reflexivity.
    + reflexivity.
    + reflexivity.
Defined.

(** ** The requested documents of the outcome modal *)

Lemma includes_elem_of (xs : list string) (s : string) :
  includes xs s = true <-> s ∈ xs.
Proof.
  unfold includes. rewrite existsb_exists, list_elem_of_In.
  split.
  - by intros (x & Hin & ->%String.eqb_eq).
  - intros Hin. exists s. by rewrite String.eqb_refl.
Qed.

Lemma elem_of_List_filter {A} (f : A -> bool) (l : list A) (x : A) :
  x ∈ List.filter f l <-> x ∈ l /\ f x = true.
Proof. rewrite !list_elem_of_In. apply filter_In. Qed.

Lemma NoDup_List_filter {A} (f : A -> bool) (l : list A) :
  NoDup l -> NoDup (List.filter f l).
Proof.
  induction 1 as [|x l Hx Hl IH]; cbn; [constructor|].
  destruct (f x); [|done]. constructor; [|done].
  rewrite elem_of_List_filter. tauto.
Qed.

Lemma handleDocumentToggle_elem_of (docType x : string) (prev : list string) :
  x ∈ CallOutcomeModal.handleDocumentToggle docType prev
  <-> (if String.eqb x docType then x ∉ prev else x ∈ prev).
Proof.
  unfold CallOutcomeModal.handleDocumentToggle.
  destruct (includes prev docType) eqn:Hinc.
  - apply includes_elem_of in Hinc.
    rewrite elem_of_List_filter.
    destruct (String.eqb_spec x docType) as [->|Hne]; cbn; [|tauto].
    split; [by intros [_ ?]|done].
  - assert (Hnot : docType ∉ prev).
    { intros Hin%includes_elem_of. congruence. }
    rewrite elem_of_app, list_elem_of_singleton.
    destruct (String.eqb_spec x docType) as [->|Hne]; tauto.
Qed.

Lemma handleDocumentToggle_NoDup (docType : string) (prev : list string) :
  NoDup prev -> NoDup (CallOutcomeModal.handleDocumentToggle docType prev).
Proof.
  intros Hnd. unfold CallOutcomeModal.handleDocumentToggle.
  destruct (includes prev docType) eqn:Hinc.
  - by apply NoDup_List_filter.
  - apply NoDup_app. split; [done|]. split; [|apply NoDup_singleton].
    intros x Hx ->%list_elem_of_singleton.
    apply includes_elem_of in Hx. congruence.
Qed.

Lemma documentsRequested_snoc (clicks : list string) (docType : string) :
  CallOutcomeModal.documentsRequested (clicks ++ [docType])%list
  = CallOutcomeModal.handleDocumentToggle docType
      (CallOutcomeModal.documentsRequested clicks).
Proof. unfold CallOutcomeModal.documentsRequested. by rewrite foldl_app. Qed.

(** X29. The documents requested in the outcome modal, after any sequence
    of clicks on the document buttons: no document is listed twice, and a
    document is listed exactly when its button was clicked an odd number of
    times.  One click on a button changes only that document: it is listed
    afterwards exactly when it was not before. *)
Theorem documentsRequested_odd_clicks (clicks : list string) :
  NoDup (CallOutcomeModal.documentsRequested clicks)
  /\ (forall docType,
        docType ∈ CallOutcomeModal.documentsRequested clicks
        <-> Nat.odd (count_occ string_dec clicks docType) = true)
  /\ (forall docType other,
        other <> docType ->
        (docType ∈ CallOutcomeModal.documentsRequested (clicks ++ [docType])%list
         <-> docType ∉ CallOutcomeModal.documentsRequested clicks)
        /\ (other ∈ CallOutcomeModal.documentsRequested (clicks ++ [docType])%list
            <-> other ∈ CallOutcomeModal.documentsRequested clicks)).
Proof.
  split; [|split].
  - induction clicks as [|d clicks IH] using rev_ind; [constructor|].
    rewrite documentsRequested_snoc. by apply handleDocumentToggle_NoDup.
  - induction clicks as [|d clicks IH] using rev_ind; intros docType.
    + cbn. split; [by intros ?%elem_of_nil|done].
    + rewrite documentsRequested_snoc, handleDocumentToggle_elem_of.
      rewrite count_occ_app. cbn [count_occ].
      destruct (String.eqb_spec docType d) as [->|Hne].
      * destruct (string_dec d d) as [_|]; [|done].
        rewrite IH, Nat.add_1_r, Nat.odd_succ, <- Nat.negb_odd.
        destruct (Nat.odd _); cbn; split; done.
      * destruct (string_dec d docType) as [->|_]; [done|].
        by rewrite IH, Nat.add_0_r.
  - intros docType other Hne.
    rewrite !documentsRequested_snoc, !handleDocumentToggle_elem_of.
    rewrite String.eqb_refl.
    by destruct (String.eqb_spec other docType).
Qed.

Lemma documentsRequested_odd_clicks_witness :
  CallOutcomeModal.documentsRequested ["id"; "bank"; "id"; "payslip"]
  = ["bank"; "payslip"]
  /\ ("bank" ∈ CallOutcomeModal.documentsRequested ["id"; "bank"; "id"]
      <-> "bank" ∈ CallOutcomeModal.documentsRequested ["id"; "bank"]).
Proof.
  split; [reflexivity|].
  apply (proj2 (proj2 (documentsRequested_odd_clicks ["id"; "bank"])) "id" "bank").
  discriminate.
Defined.
